(** * Payment gateway: refunds, payment processor, webhook outbox and signer

    A shallow embedding of the gateway's request handlers
    ([backend/src/routes/payments.js]), of its background workers
    ([jobs/paymentQueue.js]) and of its webhook service
    ([services/webhookService.js]), with the properties the specification
    states about them.

    Conventions of the embedding.
    - A table of the database is the list of its rows, in insertion order.
      [SELECT ... WHERE] is [filter], [UPDATE ... WHERE] rewrites every row
      that satisfies the predicate, [INSERT] appends.
    - Money ([DECIMAL(15,2)]) is an integer number of hundredths.
    - A JavaScript string is the sequence of the bytes of its UTF-8 encoding,
      which is also what [Buffer.from] and the HMAC see.
    - The clock, the random draw of the processor, the fresh identifiers and
      the answer of the remote HTTP endpoint are arguments of the functions
      that read them.
    - The database answers every query: a failing connection is not
      modelled. The values of [uuidv4()] and [gen_random_uuid()] are taken
      to be fresh, so that no insertion meets a primary key in use. *)

From Stdlib Require Import ZArith NArith List String Ascii Bool Lia.
From Stdlib Require Import DecimalString.
From Stdlib Require Import DecimalPos Sorted Permutation.
From Stdlib Require HexadecimalString.
Import ListNotations.

Set Implicit Arguments.
Set Warnings "-register-all".

(** ** SHA-256 and HMAC (what [crypto.createHmac('sha256', key)] computes) *)

Module SHA256.
Local Open Scope N_scope.

Definition mask32 : N := 0xFFFFFFFF.
Definition wrap32 (x : N) : N := N.land x mask32.
Definition add32 (x y : N) : N := wrap32 (x + y).
Definition rotr (n x : N) : N :=
  N.lor (N.shiftr x n) (wrap32 (N.shiftl x (32 - n))).
Definition not32 (x : N) : N := N.lxor x mask32.

Definition Ch (x y z : N) : N := N.lxor (N.land x y) (N.land (not32 x) z).
Definition Maj (x y z : N) : N :=
  N.lxor (N.lxor (N.land x y) (N.land x z)) (N.land y z).
Definition Sigma0 (x : N) : N := N.lxor (N.lxor (rotr 2 x) (rotr 13 x)) (rotr 22 x).
Definition Sigma1 (x : N) : N := N.lxor (N.lxor (rotr 6 x) (rotr 11 x)) (rotr 25 x).
Definition sigma0 (x : N) : N := N.lxor (N.lxor (rotr 7 x) (rotr 18 x)) (N.shiftr x 3).
Definition sigma1 (x : N) : N := N.lxor (N.lxor (rotr 17 x) (rotr 19 x)) (N.shiftr x 10).

(** The constants are the first 32 bits of the fractional parts of the
    cube roots (round constants) and of the square roots (initial hash
    value) of the first primes. *)
Definition primes : list N :=
  [ 2; 3; 5; 7; 11; 13; 17; 19; 23; 29; 31; 37; 41; 43; 47; 53; 59; 61; 67; 71; 73;
    79; 83; 89; 97; 101; 103; 107; 109; 113; 127; 131; 137; 139; 149; 151; 157; 163;
    167; 173; 179; 181; 191; 193; 197; 199; 211; 223; 227; 229; 233; 239; 241; 251;
    257; 263; 269; 271; 277; 281; 283; 293; 307; 311 ].

(** The integer part of the [k]-th root of [n < 2^(40 k)], bit by bit. *)
Definition root (k n : N) : N :=
  fold_left (fun r b => let c := r + 2 ^ N.of_nat b in if c ^ k <=? n then c else r)
            (rev (seq 0 40)) 0.

Definition root_fraction (k p : N) : N := wrap32 (root k (p * 2 ^ (32 * k))).

Definition K : list N := map (root_fraction 3) primes.

(** The eight working words. *)
Record regs : Set := Regs
  { ra : N; rb : N; rc : N; rd : N; re : N; rf : N; rg : N; rh : N }.

Definition H0 : regs :=
  match map (root_fraction 2) (firstn 8 primes) with
  | [a; b; c; d; e; f; g; h] => Regs a b c d e f g h
  | _ => Regs 0 0 0 0 0 0 0 0
  end.

Definition word_at (i : nat) (win : list N) : N := nth i win 0.

(** One round. [win] holds the sixteen most recent words of the message
    schedule, oldest first; its head is the word of the current round. *)
Definition round (st : regs * list N) (k : N) : regs * list N :=
  let (s, win) := st in
  let w := word_at 0 win in
  let t1 := add32 (add32 (add32 (add32 (rh s) (Sigma1 (re s)))
                                (Ch (re s) (rf s) (rg s))) k) w in
  let t2 := add32 (Sigma0 (ra s)) (Maj (ra s) (rb s) (rc s)) in
  let next := add32 (add32 (add32 (sigma1 (word_at 14 win)) (word_at 9 win))
                           (sigma0 (word_at 1 win))) (word_at 0 win) in
  (Regs (add32 t1 t2) (ra s) (rb s) (rc s) (add32 (rd s) t1) (re s) (rf s) (rg s),
   tl win ++ [next]).

Definition compress (h : regs) (block : list N) : regs :=
  let s := fst (fold_left round K (h, block)) in
  Regs (add32 (ra h) (ra s)) (add32 (rb h) (rb s)) (add32 (rc h) (rc s))
       (add32 (rd h) (rd s)) (add32 (re h) (re s)) (add32 (rf h) (rf s))
       (add32 (rg h) (rg s)) (add32 (rh h) (rh s)).

(** Big-endian packing of bytes into 32-bit words. *)
Fixpoint words_of_bytes (bs : list N) : list N :=
  match bs with
  | b3 :: b2 :: b1 :: b0 :: rest =>
      N.lor (N.shiftl b3 24) (N.lor (N.shiftl b2 16) (N.lor (N.shiftl b1 8) b0))
      :: words_of_bytes rest
  | _ => []
  end.

Definition byte_of (x : N) (i : N) : N := N.land (N.shiftr x (8 * i)) 0xFF.

Definition bytes_of_word (w : N) : list N :=
  [byte_of w 3; byte_of w 2; byte_of w 1; byte_of w 0].

Definition length_bytes (bits : N) : list N :=
  map (byte_of bits) [7; 6; 5; 4; 3; 2; 1; 0].

(** Padding: a [1] bit, zeros up to 56 modulo 64 bytes, the bit length. *)
Definition pad (msg : list N) : list N :=
  let len := N.of_nat (List.length msg) in
  let zeros := N.to_nat ((119 - len mod 64) mod 64) in
  msg ++ [0x80] ++ repeat 0 zeros ++ length_bytes (8 * len).

Fixpoint blocks (fuel : nat) (h : regs) (ws : list N) : regs :=
  match fuel, ws with
  | S fuel', _ :: _ => blocks fuel' (compress h (firstn 16 ws)) (skipn 16 ws)
  | _, _ => h
  end.

Definition hash (msg : list N) : regs :=
  let ws := words_of_bytes (pad msg) in
  blocks (List.length ws) H0 ws.

Definition regs_words (h : regs) : list N :=
  [ra h; rb h; rc h; rd h; re h; rf h; rg h; rh h].

Definition digest (msg : list N) : list N :=
  flat_map bytes_of_word (regs_words (hash msg)).

(** HMAC (RFC 2104) with a block of 64 bytes. *)
Definition block_key (key : list N) : list N :=
  let k := if Nat.ltb 64 (List.length key) then digest key else key in
  k ++ repeat 0 (64 - List.length k)%nat.

Definition hmac (key msg : list N) : list N :=
  let k := block_key key in
  digest (map (N.lxor 0x5c) k ++ digest (map (N.lxor 0x36) k ++ msg)).

End SHA256.

(** ** Strings, bytes and lowercase hexadecimal *)

Local Open Scope Z_scope.
Local Open Scope string_scope.

Fixpoint bytes_of_string (s : string) : list N :=
  match s with
  | EmptyString => []
  | String c rest => N_of_ascii c :: bytes_of_string rest
  end.

Definition hex_digit (n : N) : ascii :=
  match n with
  | 0%N => "0" | 1%N => "1" | 2%N => "2" | 3%N => "3"
  | 4%N => "4" | 5%N => "5" | 6%N => "6" | 7%N => "7"
  | 8%N => "8" | 9%N => "9" | 10%N => "a" | 11%N => "b"
  | 12%N => "c" | 13%N => "d" | 14%N => "e" | _ => "f"
  end%char.

Fixpoint hex_of_bytes (bs : list N) : string :=
  match bs with
  | [] => EmptyString
  | b :: rest =>
      String (hex_digit (N.shiftr b 4))
        (String (hex_digit (N.land b 0xF)) (hex_of_bytes rest))
  end.

(** [crypto.createHmac('sha256', key).update(message).digest('hex')] *)
Definition hmac_sha256_hex (key message : string) : string :=
  hex_of_bytes (SHA256.hmac (bytes_of_string key) (bytes_of_string message)).

Definition sha256_hex (message : string) : string :=
  hex_of_bytes (SHA256.digest (bytes_of_string message)).

(** ** JavaScript values that travel as JSON *)

Inductive JSON : Type :=
| JNull
| JBool (b : bool)
| JInt (n : Z)
| JMoney (hundredths : Z)
| JStr (s : string)
| JArr (items : list JSON)
| JObj (fields : list (string * JSON)).

Definition string_of_Z (n : Z) : string := NilEmpty.string_of_int (Z.to_int n).

(** A number with at most two decimals, printed the way JavaScript prints
    it: no trailing zero, no decimal point on a whole number. *)
Definition string_of_money (h : Z) : string :=
  let a := Z.abs h in
  let whole := string_of_Z (a / 100) in
  let frac := a mod 100 in
  let sign := if (h <? 0)%Z then "-" else EmptyString in
  if (frac =? 0)%Z then sign ++ whole
  else if (frac mod 10 =? 0)%Z then sign ++ whole ++ "." ++ string_of_Z (frac / 10)
  else sign ++ whole ++ "." ++ string_of_Z (frac / 10) ++ string_of_Z (frac mod 10).

Definition dquote : ascii := ascii_of_N 34.
Definition backslash : ascii := ascii_of_N 92.

Definition two (a b : ascii) : string := String a (String b EmptyString).

Definition escape_char (c : ascii) : string :=
  let n := N_of_ascii c in
  if (n =? 34)%N then two backslash dquote
  else if (n =? 92)%N then two backslash backslash
  else if (n =? 8)%N then two backslash "b"
  else if (n =? 12)%N then two backslash "f"
  else if (n =? 10)%N then two backslash "n"
  else if (n =? 13)%N then two backslash "r"
  else if (n =? 9)%N then two backslash "t"
  else if (n <? 32)%N then
    String backslash ("u00" ++ two (hex_digit (N.shiftr n 4)) (hex_digit (N.land n 0xF)))
  else String c EmptyString.

Fixpoint escape (s : string) : string :=
  match s with
  | EmptyString => EmptyString
  | String c rest => escape_char c ++ escape rest
  end.

Definition quote (s : string) : string := String dquote (escape s ++ String dquote EmptyString).

Fixpoint join (sep : string) (parts : list string) : string :=
  match parts with
  | [] => EmptyString
  | [p] => p
  | p :: rest => p ++ sep ++ join sep rest
  end.

(** [JSON.stringify] *)
Fixpoint JSON_stringify (v : JSON) : string :=
  match v with
  | JNull => "null"
  | JBool true => "true"
  | JBool false => "false"
  | JInt n => string_of_Z n
  | JMoney h => string_of_money h
  | JStr s => quote s
  | JArr items => "[" ++ join "," (map JSON_stringify items) ++ "]"
  | JObj fields =>
      "{" ++ join "," (map (fun kv => quote (fst kv) ++ ":" ++ JSON_stringify (snd kv)) fields)
          ++ "}"
  end.

(** ** [parseInt] *)

Definition is_space (c : ascii) : bool :=
  let n := N_of_ascii c in
  ((9 <=? n) && (n <=? 13) || (n =? 32))%N.

Fixpoint skip_spaces (s : string) : string :=
  match s with
  | String c rest => if is_space c then skip_spaces rest else s
  | EmptyString => s
  end.

Definition digit_value (c : ascii) : option Z :=
  let n := Z.of_N (N_of_ascii c) in
  if ((48 <=? n) && (n <=? 57))%Z then Some (n - 48)%Z
  else if ((97 <=? n) && (n <=? 122))%Z then Some (n - 87)%Z
  else if ((65 <=? n) && (n <=? 90))%Z then Some (n - 55)%Z
  else None.

(** The longest prefix of digits of the radix; [None] when it is empty. *)
Fixpoint digits (radix : Z) (s : string) (acc : option Z) : option Z :=
  match s with
  | EmptyString => acc
  | String c rest =>
      match digit_value c with
      | Some d =>
          if (d <? radix)%Z
          then digits radix rest
                 (Some (radix * match acc with Some a => a | None => 0 end + d)%Z)
          else acc
      | None => acc
      end
  end.

(** [parseInt(s)]: [None] is [NaN]. The value is exact (the rounding of
    integers above 2^53 is not modelled). *)
Definition parseInt (s : string) : option Z :=
  let s1 := skip_spaces s in
  let '(sign, s2) :=
    match s1 with
    | String "-" r => ((-1)%Z, r)
    | String "+" r => (1%Z, r)
    | _ => (1%Z, s1)
    end in
  let '(radix, s3) :=
    match s2 with
    | String "0" (String "x" r) => (16%Z, r)
    | String "0" (String "X" r) => (16%Z, r)
    | _ => (10%Z, s2)
    end in
  option_map (Z.mul sign) (digits radix s3 None).

(** ** services/webhookService.js *)

(** How a call ends: with a value, or with an exception. *)
Inductive Completion (A : Type) : Type :=
| Returns (value : A)
| Throws (name message : string).
Arguments Throws {A} name message.

(** [const payloadString = typeof payload === 'string' ? payload : JSON.stringify(payload)] *)
Definition payloadString (payload : JSON) : string :=
  match payload with
  | JStr s => s
  | _ => JSON_stringify payload
  end.

Definition generateSignature (payload : JSON) (secret timestamp : string) : string :=
  let message := timestamp ++ "." ++ payloadString payload in
  hmac_sha256_hex secret message.

(** [crypto.timingSafeEqual(Buffer.from(a), Buffer.from(b))] *)
Definition timingSafeEqual (a b : string) : Completion bool :=
  if Nat.eqb (String.length a) (String.length b)
  then Returns (String.eqb a b)
  else Throws "RangeError" "Input buffers must have the same byte length".

Definition default_tolerance : Z := 300000.

(** [Math.abs(currentTime - parseInt(timestamp)) > tolerance]; a comparison
    with [NaN] is false. *)
Definition outside_tolerance (timestamp : string) (tolerance currentTime : Z) : bool :=
  match parseInt timestamp with
  | Some t => (tolerance <? Z.abs (currentTime - t))%Z
  | None => false
  end.

(** The parameter [tolerance = 300000]: [None] when the caller leaves it out. *)
Definition tolerance_or_default (tolerance : option Z) : Z :=
  match tolerance with
  | Some t => t
  | None => default_tolerance
  end.

(** [now] is [Date.now()]. *)
Definition verifyWebhookSignature (payload : JSON) (signature secret timestamp : string)
    (tolerance : option Z) (now : Z) : Completion bool :=
  let tolerance := tolerance_or_default tolerance in
  if outside_tolerance timestamp tolerance now then Returns false
  else
    let expectedSignature := generateSignature payload secret timestamp in
    timingSafeEqual signature expectedSignature.

(** The third argument of [sendWebhookEvent]: left out, a URL, or a row
    of the [webhooks] table. *)
Inductive WebhookArg : Type :=
| NoWebhook
| WebhookUrl (url : string)
| WebhookRow (url secret : string).

Record HttpRequest : Type := mkRequest
  { req_url : string;
    req_body : JSON;
    req_event : string;
    req_signature : string;
    req_timestamp : string }.

(** What [axios.post] meets: a response with a status, or none. *)
Inductive AxiosOutcome : Type :=
| Responded (status : Z)
| NoResponse (message : string).

(** The [catch] block of [sendWebhookEvent] reads [webhookUrl], which is
    declared with [const] inside the [try] block and is out of scope there:
    whatever fails in the [try], the call ends with this error. *)
Definition catch_block_error : Completion Z :=
  Throws "ReferenceError" "webhookUrl is not defined".

Definition sendWebhookEvent (eventType : string) (payload : JSON) (webhook : WebhookArg)
    (now : Z) (axios_post : HttpRequest -> AxiosOutcome) : Completion Z :=
  match webhook with
  | NoWebhook => catch_block_error            (* [webhook.url] of [undefined] *)
  | WebhookRow EmptyString _ => catch_block_error      (* [webhook.url || webhook] is not a URL *)
  | WebhookUrl webhookUrl | WebhookRow webhookUrl _ =>
      let secret := match webhook with WebhookRow _ s => s | _ => EmptyString end in
      let timestamp := string_of_Z now in
      let signature := generateSignature payload secret timestamp in
      match axios_post (mkRequest webhookUrl payload eventType signature timestamp) with
      | Responded status =>
          if ((200 <=? status) && (status <? 300))%Z then Returns status
          else catch_block_error
      | NoResponse _ => catch_block_error
      end
  end.

(** ** The database (migrations/001_initial_schema.sql) *)

Inductive PaymentStatus : Set :=
| PayPending | PayCompleted | PayFailed | PayRefunded | PayPartialRefunded.

Inductive RefundStatus : Set := RefPending | RefProcessed | RefFailed.

Inductive EventStatus : Set := EvPending | EvCompleted | EvFailed.

Record Payment : Type := mkPayment
  { pay_id : string;
    pay_idempotency_key : string;
    pay_amount : Z;
    pay_currency : string;
    pay_status : PaymentStatus;
    pay_customer_email : string;
    pay_customer_name : option string;
    pay_description : option string;
    pay_payment_method : option string;
    pay_metadata : JSON;
    pay_created_at : Z }.

Record Refund : Type := mkRefund
  { ref_id : string;
    ref_payment_id : string;
    ref_amount : Z;
    ref_reason : option string;
    ref_status : RefundStatus;
    ref_created_at : Z }.

Record Webhook : Type := mkWebhook
  { wh_id : string;
    wh_url : string;
    wh_events : list string;
    wh_active : bool;
    wh_secret : string }.

Record WebhookEvent : Type := mkWebhookEvent
  { ev_id : string;
    ev_webhook_id : string;
    ev_event_type : string;
    ev_payload : JSON;
    ev_status : EventStatus;
    ev_retry_count : Z;
    ev_max_retries : Z;
    ev_next_retry : option Z;
    ev_last_error : option string }.

Record IdempotencyKey : Type := mkIdempotencyKey
  { ik_key : string;
    ik_payment_id : option string;
    ik_response : JSON;
    ik_expires_at : Z }.

Record DB : Type := mkDB
  { payments : list Payment;
    refunds : list Refund;
    webhooks : list Webhook;
    webhook_events : list WebhookEvent;
    idempotency_keys : list IdempotencyKey }.

Definition with_payments (db : DB) (t : list Payment) : DB :=
  mkDB t (refunds db) (webhooks db) (webhook_events db) (idempotency_keys db).
Definition with_refunds (db : DB) (t : list Refund) : DB :=
  mkDB (payments db) t (webhooks db) (webhook_events db) (idempotency_keys db).
Definition with_webhook_events (db : DB) (t : list WebhookEvent) : DB :=
  mkDB (payments db) (refunds db) (webhooks db) t (idempotency_keys db).
Definition with_idempotency_keys (db : DB) (t : list IdempotencyKey) : DB :=
  mkDB (payments db) (refunds db) (webhooks db) (webhook_events db) t.

(** [UPDATE table SET ... WHERE ...] *)
Definition sql_update {A : Type} (where_ : A -> bool) (set : A -> A) (table : list A)
    : list A :=
  map (fun row => if where_ row then set row else row) table.

Definition set_pay_status (s : PaymentStatus) (p : Payment) : Payment :=
  mkPayment (pay_id p) (pay_idempotency_key p) (pay_amount p) (pay_currency p) s
    (pay_customer_email p) (pay_customer_name p) (pay_description p)
    (pay_payment_method p) (pay_metadata p) (pay_created_at p).

Definition set_ev_status (s : EventStatus) (e : WebhookEvent) : WebhookEvent :=
  mkWebhookEvent (ev_id e) (ev_webhook_id e) (ev_event_type e) (ev_payload e) s
    (ev_retry_count e) (ev_max_retries e) (ev_next_retry e) (ev_last_error e).

(** [SET status = 'failed', last_error = $2, retry_count = $3] *)
Definition set_ev_exhausted (message : string) (count : Z) (e : WebhookEvent)
    : WebhookEvent :=
  mkWebhookEvent (ev_id e) (ev_webhook_id e) (ev_event_type e) (ev_payload e) EvFailed
    count (ev_max_retries e) (ev_next_retry e) (Some message).

(** [SET retry_count = $1, next_retry = ..., last_error = $3] *)
Definition set_ev_retry (count next : Z) (message : string) (e : WebhookEvent)
    : WebhookEvent :=
  mkWebhookEvent (ev_id e) (ev_webhook_id e) (ev_event_type e) (ev_payload e)
    (ev_status e) count (ev_max_retries e) (Some next) (Some message).

Definition payment_status_string (s : PaymentStatus) : string :=
  match s with
  | PayPending => "pending"
  | PayCompleted => "completed"
  | PayFailed => "failed"
  | PayRefunded => "refunded"
  | PayPartialRefunded => "partial_refunded"
  end.

Definition refund_status_string (s : RefundStatus) : string :=
  match s with
  | RefPending => "pending"
  | RefProcessed => "processed"
  | RefFailed => "failed"
  end.

(** ** routes/payments.js *)

Record Response : Type := mkResponse { res_status : Z; res_body : JSON }.

Definition error_body (message : string) : JSON := JObj [("error", JStr message)].

(** A header that is absent or empty is falsy. *)
Definition truthy (header : option string) : option string :=
  match header with
  | Some EmptyString => None
  | _ => header
  end.

(** [idempotencyMiddleware]: [Some r] when it answers itself, [None] when
    it calls [next()]. *)
Definition idempotencyMiddleware (db : DB) (header : option string) : option Response :=
  match truthy header with
  | None => None
  | Some key =>
      match filter (fun r => ik_key r =? key) (idempotency_keys db) with
      | row :: _ => Some (mkResponse 200 (ik_response row))
      | [] => None
      end
  end.

(** The payment jobs held by the queue, each under its [jobId]. *)
Record PaymentJob : Type := mkPaymentJob
  { job_paymentId : string; job_amount : Z; job_email : string }.

(** [queue.add(data, { jobId })]: a job whose id the queue already holds is
    not added again. *)
Definition queue_add (job : PaymentJob) (queue : list PaymentJob) : list PaymentJob :=
  if existsb (fun j => job_paymentId j =? job_paymentId job) queue
  then queue
  else (queue ++ [job])%list.

Record World : Type := mkWorld { world_db : DB; payment_queue : list PaymentJob }.

Record PaymentBody : Type := mkPaymentBody
  { body_amount : option Z;
    body_currency : option string;
    body_customer_email : option string;
    body_customer_name : option string;
    body_description : option string;
    body_payment_method : option string;
    body_metadata : option JSON }.

Definition idempotency_ttl_seconds : Z := 24 * 60 * 60.

(** [router.post('/')]. [uuid1] and [uuid2] are the two values [uuidv4()]
    yields, [now] is the database's [NOW()]. *)
Definition post_payment (w : World) (header : option string) (body : PaymentBody)
    (uuid1 uuid2 : string) (now : Z) : Response * World :=
  let db := world_db w in
  match idempotencyMiddleware db header with
  | Some replay => (replay, w)
  | None =>
      let idempotencyKey := match truthy header with Some k => k | None => uuid1 end in
      let currency := match body_currency body with Some c => c | None => "USD" end in
      let metadata := match body_metadata body with Some m => m | None => JObj [] end in
      match body_amount body with
      | None => (mkResponse 400 (error_body "Invalid amount"), w)
      | Some amount =>
          if (amount <=? 0)%Z then (mkResponse 400 (error_body "Invalid amount"), w)
          else
            match truthy (body_customer_email body) with
            | None => (mkResponse 400 (error_body "Customer email is required"), w)
            | Some customer_email =>
                match filter (fun p => pay_idempotency_key p =? idempotencyKey)
                             (payments db) with
                | existing :: _ =>
                    (mkResponse 200
                       (JObj [("id", JStr (pay_id existing));
                              ("status", JStr (payment_status_string (pay_status existing)));
                              ("message", JStr "Payment already exists")]), w)
                | [] =>
                    let paymentId := uuid2 in
                    let row :=
                      mkPayment paymentId idempotencyKey amount currency PayPending
                        customer_email (body_customer_name body) (body_description body)
                        (body_payment_method body) metadata now in
                    let response :=
                      JObj [("id", JStr paymentId);
                            ("status", JStr (payment_status_string PayPending));
                            ("amount", JMoney amount);
                            ("currency", JStr currency);
                            ("created_at", JInt now)] in
                    let key_row :=
                      mkIdempotencyKey idempotencyKey (Some paymentId) response
                        (now + idempotency_ttl_seconds) in
                    let db1 := with_payments db (payments db ++ [row])%list in
                    let db2 := with_idempotency_keys db1
                                 (idempotency_keys db1 ++ [key_row])%list in
                    (mkResponse 201 response,
                     mkWorld db2
                       (queue_add (mkPaymentJob paymentId amount customer_email)
                                  (payment_queue w)))
                end
            end
      end
  end.

(** [router.post('/:id/refund')]. [amount] is the body's [amount] when it
    is a number; [refundId] is the value of [uuidv4()], [now] the
    database's [NOW()], [clock] is [Date.now()]. The transaction is
    committed before the webhook is sent: what follows the [COMMIT] cannot
    undo the insertion. *)
Definition post_payment_refund (db : DB) (header : option string) (paymentId : string)
    (amount : option Z) (reason : option string) (refundId : string) (now clock : Z)
    (axios_post : HttpRequest -> AxiosOutcome) : Response * DB :=
  match idempotencyMiddleware db header with
  | Some replay => (replay, db)
  | None =>
      match filter (fun p => pay_id p =? paymentId) (payments db) with
      | [] => (mkResponse 404 (error_body "Payment not found"), db)
      | payment :: _ =>
          (* [amount || payment.amount]: [0] and a missing amount are falsy *)
          let refundAmount :=
            match amount with
            | Some a => if (a =? 0)%Z then pay_amount payment else a
            | None => pay_amount payment
            end in
          if (pay_amount payment <? refundAmount)%Z
          then (mkResponse 400 (error_body "Refund amount exceeds payment amount"), db)
          else
            let row := mkRefund refundId paymentId refundAmount reason RefPending now in
            let committed := with_refunds db (refunds db ++ [row])%list in
            let refund :=
              JObj [("id", JStr refundId);
                    ("payment_id", JStr paymentId);
                    ("amount", JMoney refundAmount);
                    ("status", JStr (refund_status_string RefPending));
                    ("created_at", JInt now)] in
            match sendWebhookEvent "refund.created" refund NoWebhook clock axios_post with
            | Returns _ => (mkResponse 201 refund, committed)
            | Throws _ _ =>
                (mkResponse 500 (error_body "Refund processing failed"), committed)
            end
      end
  end.

(** ** jobs/paymentQueue.js *)

(** [INSERT INTO webhook_events (webhook_id, event_type, payload, status)
     SELECT id, $1, $2, $3 FROM webhooks WHERE active = true]: the other
    columns take their defaults; [gen_random_uuid n] is the identifier
    given to the row at position [n] of the table. *)
Definition new_event (event_type : string) (payload : JSON) (status : EventStatus)
    (id : string) (w : Webhook) : WebhookEvent :=
  mkWebhookEvent id (wh_id w) event_type payload status 0 5 None None.

Definition insert_webhook_events (db : DB) (event_type : string) (payload : JSON)
    (status : EventStatus) (gen_random_uuid : nat -> string) : DB :=
  let selected := filter wh_active (webhooks db) in
  let first := List.length (webhook_events db) in
  let rows :=
    map (fun iw => new_event event_type payload status (gen_random_uuid (fst iw)) (snd iw))
        (combine (seq first (List.length selected)) selected) in
  with_webhook_events db (webhook_events db ++ rows)%list.

Definition update_payment_status (db : DB) (status : PaymentStatus) (paymentId : string)
    : DB :=
  with_payments db
    (sql_update (fun p => pay_id p =? paymentId) (set_pay_status status) (payments db)).

(** [processPayment]. [isSuccess] is the value of [Math.random() < 0.9].
    On failure the transaction is committed and then the job throws. *)
Definition processPayment (db : DB) (data : PaymentJob) (isSuccess : bool)
    (gen_random_uuid : nat -> string) : Completion unit * DB :=
  let paymentId := job_paymentId data in
  if isSuccess then
    let db1 := update_payment_status db PayCompleted paymentId in
    let payload :=
      JObj [("payment_id", JStr paymentId);
            ("amount", JMoney (job_amount data));
            ("email", JStr (job_email data))] in
    (Returns tt, insert_webhook_events db1 "payment.completed" payload EvPending gen_random_uuid)
  else
    let db1 := update_payment_status db PayFailed paymentId in
    let payload :=
      JObj [("payment_id", JStr paymentId);
            ("amount", JMoney (job_amount data));
            ("reason", JStr "Processing failed")] in
    (Throws "Error" ("Payment " ++ paymentId ++ " processing failed"),
     insert_webhook_events db1 "payment.failed" payload EvPending gen_random_uuid).

(** What the poller selects every 30 seconds. *)
Definition is_due (now : Z) (e : WebhookEvent) : bool :=
  match ev_status e, ev_next_retry e with
  | EvPending, None => true
  | EvPending, Some t => (t <=? now)%Z
  | _, _ => false
  end.

Definition pendingEvents (db : DB) (now : Z) : list WebhookEvent :=
  firstn 100 (filter (is_due now) (webhook_events db)).

(** The columns of a selected row that [processWebhookEvent] reads. *)
Record EventData : Type := mkEventData
  { data_id : string;
    data_webhook_id : string;
    data_event_type : string;
    data_payload : JSON;
    data_retry_count : Z;
    data_max_retries : Z }.

Definition event_data (e : WebhookEvent) : EventData :=
  mkEventData (ev_id e) (ev_webhook_id e) (ev_event_type e) (ev_payload e)
    (ev_retry_count e) (ev_max_retries e).

Definition update_event (db : DB) (eventId : string) (set : WebhookEvent -> WebhookEvent)
    : DB :=
  with_webhook_events db
    (sql_update (fun e => ev_id e =? eventId) set (webhook_events db)).

(** [Math.pow(2, newRetryCount) * 60], for a count that is not negative. *)
Definition backoffSeconds (newRetryCount : Z) : Z := 2 ^ newRetryCount * 60.

(** [processWebhookEvent]. [now] is the database's [NOW()] in seconds,
    [clock] is [Date.now()]. *)
Definition processWebhookEvent (db : DB) (eventData : EventData) (now clock : Z)
    (axios_post : HttpRequest -> AxiosOutcome) : DB :=
  let eventId := data_id eventData in
  match filter (fun w => wh_id w =? data_webhook_id eventData) (webhooks db) with
  | [] => update_event db eventId (set_ev_status EvFailed)
  | webhook :: _ =>
      match sendWebhookEvent (data_event_type eventData) (data_payload eventData)
              (WebhookRow (wh_url webhook) (wh_secret webhook)) clock axios_post with
      | Returns _ => update_event db eventId (set_ev_status EvCompleted)
      | Throws _ message =>
          let newRetryCount := data_retry_count eventData + 1 in
          if (data_max_retries eventData <=? newRetryCount)%Z
          then update_event db eventId (set_ev_exhausted message newRetryCount)
          else update_event db eventId
                 (set_ev_retry newRetryCount (now + backoffSeconds newRetryCount) message)
      end
  end.

(** ** services/webhookService.js: [sendWebhookWithRetry] *)

(** The [event] argument: the two properties the function reads. *)
Record EventArg : Type := mkEventArg { arg_event_type : string; arg_payload : JSON }.

(** [{ success: true, result, retryCount }] and
    [{ success: false, error, retryCount }]. *)
Inductive RetryResult : Type :=
| RetrySucceeded (statusCode retryCount : Z)
| RetryGaveUp (error : string) (retryCount : Z).

(** [lastError.message] when [lastError] is still [null]. *)
Definition null_message_error : Completion RetryResult :=
  Throws "TypeError" "Cannot read properties of null (reading 'message')".

(** The [while] loop. [clock n] is [Date.now()] and [axios_post n] the
    remote endpoint at the attempt made with [retryCount = n]; [slept]
    collects the delays passed to [setTimeout], in milliseconds. [None]
    when the fuel does not reach the end of the loop. *)
Fixpoint retry_loop (fuel : nat) (webhook : WebhookArg) (event : EventArg) (maxRetries : Z)
    (clock : Z -> Z) (axios_post : Z -> HttpRequest -> AxiosOutcome)
    (retryCount : Z) (lastError : option string) (slept : list Z)
    : option (Completion RetryResult * list Z) :=
  if (retryCount <? maxRetries)%Z then
    match fuel with
    | O => None
    | S fuel' =>
        match sendWebhookEvent (arg_event_type event) (arg_payload event) webhook
                (clock retryCount) (axios_post retryCount) with
        | Returns statusCode => Some (Returns (RetrySucceeded statusCode retryCount), slept)
        | Throws _ message =>
            let retryCount' := (retryCount + 1)%Z in
            let slept' :=
              if (retryCount' <? maxRetries)%Z
              then (slept ++ [2 ^ retryCount' * 1000])%list
              else slept in
            retry_loop fuel' webhook event maxRetries clock axios_post retryCount'
              (Some message) slept'
        end
    end
  else
    match lastError with
    | Some message => Some (Returns (RetryGaveUp message retryCount), slept)
    | None => Some (null_message_error, slept)
    end.

(** [maxRetries] is [None] when the caller leaves the default of 5. *)
Definition sendWebhookWithRetry (webhook : WebhookArg) (event : EventArg)
    (maxRetries : option Z) (clock : Z -> Z) (axios_post : Z -> HttpRequest -> AxiosOutcome)
    : option (Completion RetryResult * list Z) :=
  let maxRetries := match maxRetries with Some m => m | None => 5 end in
  retry_loop (Z.to_nat maxRetries) webhook event maxRetries clock axios_post 0 None [].

(** ** routes/payments.js: [router.get('/:id')] *)





(** ** routes/webhooks.js: [router.delete('/:id')] *)

(** [DELETE FROM webhooks WHERE id = $1]; the rows of [webhook_events]
    that reference the subscription go with it ([ON DELETE CASCADE]). *)
Definition delete_webhook (db : DB) (id : string) : Response * DB :=
  match filter (fun w => wh_id w =? id) (webhooks db) with
  | [] => (mkResponse 404 (error_body "Webhook not found"), db)
  | _ :: _ =>
      (mkResponse 200 (JObj [("message", JStr "Webhook deleted successfully")]),
       mkDB (payments db) (refunds db)
         (filter (fun w => negb (wh_id w =? id)) (webhooks db))
         (filter (fun e => negb (ev_webhook_id e =? id)) (webhook_events db))
         (idempotency_keys db))
  end.

Definition set_wh_active (active : bool) (w : Webhook) : Webhook :=
  mkWebhook (wh_id w) (wh_url w) (wh_events w) active (wh_secret w).

(** ** The embeddable SDK: [PaymentGateway.prototype._generateUUID] *)

(** [v.toString(16)] *)
Definition toString16 (v : N) : string :=
  HexadecimalString.NilZero.string_of_uint (N.to_hex_uint v).

(** [template.replace(/[xy]/g, c => ...)]: [draw i] is the value of
    [Math.random() * 16 | 0] at the [i]-th character replaced. *)
Fixpoint replace_xy (template : string) (draw : nat -> N) (i : nat) : string :=
  match template with
  | EmptyString => EmptyString
  | String c rest =>
      if Ascii.eqb c "x" then
        toString16 (draw i) ++ replace_xy rest draw (S i)
      else if Ascii.eqb c "y" then
        toString16 (N.lor (N.land (draw i) 3) 8) ++ replace_xy rest draw (S i)
      else String c (replace_xy rest draw i)
  end.

Definition _generateUUID (draw : nat -> N) : string :=
  replace_xy "xxxxxxxx-xxxx-4xxx-yxxx-xxxxxxxxxxxx" draw 0.

(** The shape of a version 4 UUID: [h] stands for a lowercase hexadecimal
    digit, [v] for one of [8], [9], [a], [b]. *)
Definition is_hex_char (c : ascii) : bool :=
  let n := N_of_ascii c in
  (((48 <=? n) && (n <=? 57)) || ((97 <=? n) && (n <=? 102)))%N.

Definition is_variant_char (c : ascii) : bool :=
  let n := N_of_ascii c in
  ((n =? 56) || (n =? 57) || (n =? 97) || (n =? 98))%N.

Fixpoint has_shape (shape s : string) : bool :=
  match shape, s with
  | EmptyString, EmptyString => true
  | String k shape', String c s' =>
      (if Ascii.eqb k "h" then is_hex_char c
       else if Ascii.eqb k "v" then is_variant_char c
       else Ascii.eqb k c)
      && has_shape shape' s'
  | _, _ => false
  end.

Definition uuid_v4_shape : string := "hhhhhhhh-hhhh-4hhh-vhhh-hhhhhhhhhhhh".

(** ** Notions the further properties use *)

(** The value [digits] reaches on the decimal numeral [d] from [acc]. *)
Definition uint_value (d : Decimal.uint) (acc : Z) : Z :=
  if (acc =? 0)%Z then Z.of_N (Pos.of_uint d)
  else Z.pos (Pos.of_uint_acc d (Z.to_pos acc)).

Fixpoint backoff_delays (first : Z) (count : nat) : list Z :=
  match count with
  | O => []
  | S count' => (2 ^ first * 1000) :: backoff_delays (first + 1) count'
  end.

Definition the_lost_cause : string := "webhookUrl is not defined".

Definition retry_attempt (webhook : WebhookArg) (event : EventArg) (clock : Z -> Z)
    (axios_post : Z -> HttpRequest -> AxiosOutcome) (n : Z) : Completion Z :=
  sendWebhookEvent (arg_event_type event) (arg_payload event) webhook (clock n)
    (axios_post n).

Definition amount_is_invalid (body : PaymentBody) : Prop :=
  match body_amount body with
  | Some amount => (amount <= 0)%Z
  | None => True
  end.



(** [UPDATE webhooks SET ...]: the table of subscriptions replaced. *)
Definition with_webhooks (db : DB) (t : list Webhook) : DB :=
  mkDB (payments db) (refunds db) t (webhook_events db) (idempotency_keys db).

(** ** What the specification speaks of *)

(** The refunds of a payment that count against its amount: those whose
    status is [pending] or [processed]. *)
Definition counts_against (paymentId : string) (r : Refund) : bool :=
  (ref_payment_id r =? paymentId)
  && match ref_status r with RefFailed => false | _ => true end.

Definition refunded_total (db : DB) (paymentId : string) : Z :=
  fold_right Z.add 0 (map ref_amount (filter (counts_against paymentId) (refunds db))).

Definition payment_status (db : DB) (paymentId : string) : option PaymentStatus :=
  option_map pay_status (find (fun p => pay_id p =? paymentId) (payments db)).

(** The transitions the specification allows to a payment. *)
Definition spec_transition (from to : PaymentStatus) : bool :=
  match from, to with
  | PayPending, (PayCompleted | PayFailed) => true
  | PayCompleted, (PayRefunded | PayPartialRefunded) => true
  | PayPartialRefunded, (PayRefunded | PayPartialRefunded) => true
  | _, _ => false
  end.

(** The lookup the specification describes: the recorded response of a key
    whose record has not expired at [now]. *)
Definition spec_lookupIdempotent (now : Z) (db : DB) (key : string) : option JSON :=
  match filter (fun r => (ik_key r =? key) && (now <? ik_expires_at r)%Z)
               (idempotency_keys db) with
  | row :: _ => Some (ik_response row)
  | [] => None
  end.

Definition set_ik_expires_at (t : Z) (r : IdempotencyKey) : IdempotencyKey :=
  mkIdempotencyKey (ik_key r) (ik_payment_id r) (ik_response r) t.

(** The status the processor writes. *)
Definition outcome_status (isSuccess : bool) : PaymentStatus :=
  if isSuccess then PayCompleted else PayFailed.

Definition outcome_event (isSuccess : bool) : string :=
  if isSuccess then "payment.completed" else "payment.failed".

(** The rows of [webhook_events] that [db'] holds beyond those of [db]. *)
Definition inserted_events (db db' : DB) : list WebhookEvent :=
  skipn (List.length (webhook_events db)) (webhook_events db').

Definition bound_to (w : Webhook) (rows : list WebhookEvent) : list WebhookEvent :=
  filter (fun e => ev_webhook_id e =? wh_id w) rows.

(** The delivery [processWebhookEvent] attempts for a job: [None] when the
    subscription of the job is not in the table. *)
Definition delivery (db : DB) (eventData : EventData) (clock : Z)
    (axios_post : HttpRequest -> AxiosOutcome) : option (Completion Z) :=
  match filter (fun w => wh_id w =? data_webhook_id eventData) (webhooks db) with
  | [] => None
  | webhook :: _ =>
      Some (sendWebhookEvent (data_event_type eventData) (data_payload eventData)
              (WebhookRow (wh_url webhook) (wh_secret webhook)) clock axios_post)
  end.

Definition delivery_failed (d : option (Completion Z)) : bool :=
  match d with
  | Some (Throws _ _) => true
  | _ => false
  end.

(** What [processWebhookEvent] writes into the rows it updates, by the
    outcome of the delivery. *)
Definition attempt_update (eventData : EventData) (now : Z)
    (outcome : option (Completion Z)) : WebhookEvent -> WebhookEvent :=
  match outcome with
  | None => set_ev_status EvFailed
  | Some (Returns _) => set_ev_status EvCompleted
  | Some (Throws _ message) =>
      let newRetryCount := (data_retry_count eventData + 1)%Z in
      if (data_max_retries eventData <=? newRetryCount)%Z
      then set_ev_exhausted message newRetryCount
      else set_ev_retry newRetryCount (now + backoffSeconds newRetryCount) message
  end.

(** One turn of the dispatcher: the poller selects the rows that are due
    at [now], and the worker handles the [pick]-th of them. *)
Record Tick : Type := mkTick
  { tick_now : Z;
    tick_clock : Z;
    tick_axios : HttpRequest -> AxiosOutcome;
    tick_pick : nat }.

Definition dispatch (db : DB) (t : Tick) : DB :=
  match nth_error (pendingEvents db (tick_now t)) (tick_pick t) with
  | Some e => processWebhookEvent db (event_data e) (tick_now t) (tick_clock t) (tick_axios t)
  | None => db
  end.

Definition dispatch_all (db : DB) (ticks : list Tick) : DB := fold_left dispatch ticks db.

(** A row of the outbox as the processor and the dispatcher leave it. *)
Definition event_row_ok (db : DB) (e : WebhookEvent) : Prop :=
  (0 <= ev_retry_count e <= ev_max_retries e)%Z
  /\ (ev_status e = EvPending -> (ev_retry_count e < ev_max_retries e)%Z)
  /\ (ev_status e = EvFailed -> ev_retry_count e = ev_max_retries e)
  /\ (exists w, In w (webhooks db) /\ wh_id w = ev_webhook_id e).

Definition outbox_ok (db : DB) : Prop :=
  NoDup (map ev_id (webhook_events db))
  /\ Forall (event_row_ok db) (webhook_events db).

(** ** Sample data *)

Definition a_payment (status : PaymentStatus) : Payment :=
  mkPayment "pay_1" "key_1" 10000 "USD" status "a@b.c" None None None (JObj []) 0.


Definition a_db (status : PaymentStatus) (rs : list Refund) (ws : list Webhook) : DB :=
  mkDB [a_payment status] rs ws [] [].

Definition a_job : PaymentJob := mkPaymentJob "pay_1" 10000 "a@b.c".

Definition uuid_of_nat (n : nat) : string := "evt_" ++ string_of_Z (Z.of_nat n).

Definition receiver_ok (_ : HttpRequest) : AxiosOutcome := Responded 200.
Definition receiver_down (_ : HttpRequest) : AxiosOutcome := Responded 500.

Definition a_webhook (id : string) (events : list string) (active : bool) : Webhook :=
  mkWebhook id "https://example.test/hook" events active "s".

Definition an_event (status : EventStatus) (count : Z) : WebhookEvent :=
  mkWebhookEvent "evt_0" "wh_1" "payment.completed" (JObj []) status count 5 None None.

Definition a_key_row (expires_at : Z) : IdempotencyKey :=
  mkIdempotencyKey "K1" (Some "pay_1") (JObj [("id", JStr "pay_1")]) expires_at.

Definition a_payload : JSON := JObj [("event", JStr "payment.completed")].
Definition a_timestamp : string := "1705315870000".

Definition a_body : PaymentBody :=
  mkPaymentBody (Some 9999) (Some "USD") (Some "a@b.c") None None None None.

Definition an_empty_world : World := mkWorld (mkDB [] [] [] [] []) [].

Definition a_tick (now : Z) : Tick := mkTick now (now * 1000) receiver_down 0.

Definition an_event_arg : EventArg := mkEventArg "payment.completed" a_payload.

Definition a_clock (n : Z) : Z := 1705315870000 + n.

Definition a_hook : WebhookArg := WebhookRow "https://example.test/hook" "s".

(** A receiver that answers 500 to the first [k] attempts and 200 from then on. *)
Definition a_receiver_up_from (k n : Z) : HttpRequest -> AxiosOutcome :=
  if (n <? k)%Z then receiver_down else receiver_ok.

Definition an_outbox (count : Z) : DB :=
  mkDB [] [] [a_webhook "wh_1" ["payment.completed"] true] [an_event EvPending count] [].

(** * Properties *)

(** ** Known answers of the hash: FIPS 180-4 and RFC 4231, test case 2 *)

Example sha256_empty :
  sha256_hex EmptyString
  = "e3b0c44298fc1c149afbf4c8996fb92427ae41e4649b934ca495991b7852b855".
Proof. vm_compute. reflexivity. Qed.

Example sha256_abc :
  sha256_hex "abc" = "ba7816bf8f01cfea414140de5dae2223b00361a396177a9cb410ff61f20015ad".
Proof. vm_compute. reflexivity. Qed.

Example hmac_rfc4231_2 :
  hmac_sha256_hex "Jefe" "what do ya want for nothing?"
  = "5bdcc146bf60754e6a042426089575c75a003f089d2739839dec58b964ec3843".
Proof. vm_compute. reflexivity. Qed.

Example sha256_constants :
  (nth 0 SHA256.K 0 = 0x428a2f98 /\ nth 63 SHA256.K 0 = 0xc67178f2
   /\ SHA256.ra SHA256.H0 = 0x6a09e667 /\ SHA256.rh SHA256.H0 = 0x5be0cd19)%N.
Proof. vm_compute. repeat split. Qed.

(** ** Tables *)

Section Tables.
Context {A : Type}.
Variables (where_ : A -> bool) (set : A -> A).

Lemma sql_update_length (t : list A) :
  List.length (sql_update where_ set t) = List.length t.
Proof. unfold sql_update. apply length_map. Qed.

Lemma in_sql_update (t : list A) (r' : A) :
  In r' (sql_update where_ set t) <->
  exists r, In r t /\ r' = (if where_ r then set r else r).
Proof.
  unfold sql_update. rewrite in_map_iff. split.
  - intros (r & E & I). exists r. split; [exact I | symmetry; exact E].
  - intros (r & I & E). exists r. split; [symmetry; exact E | exact I].
Qed.

Lemma sql_update_keeps (t : list A) (r : A) :
  In r t -> where_ r = false -> In r (sql_update where_ set t).
Proof.
  intros I W. apply in_sql_update. exists r. rewrite W. split; [exact I | reflexivity].
Qed.

Lemma sql_update_sets (t : list A) (r : A) :
  In r t -> where_ r = true -> In (set r) (sql_update where_ set t).
Proof.
  intros I W. apply in_sql_update. exists r. rewrite W. split; [exact I | reflexivity].
Qed.

Lemma sql_update_map {B : Type} (key : A -> B) (t : list A) :
  (forall r, key (set r) = key r) ->
  map key (sql_update where_ set t) = map key t.
Proof.
  intros K. unfold sql_update. rewrite map_map. apply map_ext.
  intros r. destruct (where_ r); [apply K | reflexivity].
Qed.
End Tables.

Lemma NoDup_map_eq {A B : Type} (f : A -> B) (l : list A) (a b : A) :
  NoDup (map f l) -> In a l -> In b l -> f a = f b -> a = b.
Proof.
  induction l as [|x l IH]; simpl; intros N Ia Ib E; [contradiction|].
  inversion N as [|? ? Nx Nl]; subst.
  destruct Ia as [-> | Ia], Ib as [-> | Ib]; auto.
  - exfalso. apply Nx. rewrite E. apply in_map. exact Ib.
  - exfalso. apply Nx. rewrite <- E. apply in_map. exact Ia.
Qed.

Lemma in_firstn {A : Type} (n : nat) (l : list A) (x : A) :
  In x (firstn n l) -> In x l.
Proof.
  intros I. rewrite <- (firstn_skipn n l). apply in_or_app. left. exact I.
Qed.

(** ** The webhook dispatcher *)

Lemma sendWebhookEvent_without_webhook eventType payload now axios_post :
  sendWebhookEvent eventType payload NoWebhook now axios_post
  = Throws "ReferenceError" "webhookUrl is not defined".
Proof. reflexivity. Qed.

(** The handler branches on the subscription found, on the outcome of the
    delivery and on the retry budget. *)
Ltac by_branch_of_handler :=
  unfold processWebhookEvent, delivery, attempt_update;
  destruct (filter _ (webhooks _)) as [|? ?]; [reflexivity|];
  destruct (sendWebhookEvent _ _ _ _ _) as [?|? ?]; [reflexivity|];
  destruct (_ <=? _)%Z; reflexivity.

Ltac by_outcome outcome :=
  destruct outcome as [[?|? ?]|]; simpl; try reflexivity;
  destruct (_ <=? _)%Z; reflexivity.

Lemma processWebhookEvent_rows db eventData now clock axios_post :
  webhook_events (processWebhookEvent db eventData now clock axios_post)
  = sql_update (fun e => ev_id e =? data_id eventData)
      (attempt_update eventData now (delivery db eventData clock axios_post))
      (webhook_events db).
Proof. by_branch_of_handler. Qed.

Lemma processWebhookEvent_webhooks db eventData now clock axios_post :
  webhooks (processWebhookEvent db eventData now clock axios_post) = webhooks db.
Proof. by_branch_of_handler. Qed.

Lemma attempt_update_id eventData now outcome e :
  ev_id (attempt_update eventData now outcome e) = ev_id e.
Proof. by_outcome outcome. Qed.

Lemma attempt_update_max eventData now outcome e :
  ev_max_retries (attempt_update eventData now outcome e) = ev_max_retries e.
Proof. by_outcome outcome. Qed.

Lemma attempt_update_webhook eventData now outcome e :
  ev_webhook_id (attempt_update eventData now outcome e) = ev_webhook_id e.
Proof. by_outcome outcome. Qed.

Lemma pendingEvents_in db now e :
  In e (pendingEvents db now) -> In e (webhook_events db) /\ ev_status e = EvPending.
Proof.
  unfold pendingEvents. intros I. apply in_firstn in I. apply filter_In in I.
  destruct I as [I D]. split; [exact I|].
  unfold is_due in D. destruct (ev_status e); try discriminate. reflexivity.
Qed.

Lemma delivery_found db e clock axios_post :
  (exists w, In w (webhooks db) /\ wh_id w = ev_webhook_id e) ->
  exists c, delivery db (event_data e) clock axios_post = Some c.
Proof.
  intros (w & I & E). unfold delivery. simpl.
  destruct (filter _ (webhooks db)) as [|webhook rest] eqn:F.
  - exfalso. assert (In w []) as X; [|exact X].
    rewrite <- F. apply filter_In. split; [exact I|]. apply String.eqb_eq. exact E.
  - eexists. reflexivity.
Qed.

(** The row of a pending event after one attempt on its current values. *)
Lemma attempt_on_pending_row db e now clock axios_post :
  event_row_ok db e -> ev_status e = EvPending ->
  let outcome := delivery db (event_data e) clock axios_post in
  let e' := attempt_update (event_data e) now outcome e in
  event_row_ok db e'
  /\ (ev_status e' = EvFailed <->
      delivery_failed outcome = true /\ ev_retry_count e' = ev_max_retries e').
Proof.
  intros (R & P & F & W) S. specialize (P S).
  destruct (delivery_found db e clock axios_post W) as [c C].
  simpl. rewrite C. unfold event_row_ok.
  destruct c as [status|name message]; simpl.
  - repeat split; try (intros; discriminate); try lia; try exact W.
  - destruct (Z.leb_spec (ev_max_retries e) (ev_retry_count e + 1)); simpl.
    + repeat split; try (intros; discriminate); try lia; try exact W.
    + rewrite S. repeat split; try (intros; discriminate); try lia; try exact W.
Qed.

Lemma event_row_ok_webhooks db db' e :
  webhooks db' = webhooks db -> event_row_ok db e -> event_row_ok db' e.
Proof. unfold event_row_ok. intros ->. tauto. Qed.

Lemma processWebhookEvent_keeps_outbox_ok db e now clock axios_post :
  outbox_ok db -> In e (webhook_events db) -> ev_status e = EvPending ->
  outbox_ok (processWebhookEvent db (event_data e) now clock axios_post).
Proof.
  intros [N A] I S. split.
  - rewrite processWebhookEvent_rows, sql_update_map; [exact N|].
    intros r. apply attempt_update_id.
  - rewrite processWebhookEvent_rows. apply Forall_forall. intros r' I'.
    apply in_sql_update in I'. destruct I' as (r & Ir & ->).
    apply event_row_ok_webhooks with (db := db);
      [apply processWebhookEvent_webhooks|].
    rewrite Forall_forall in A.
    destruct (String.eqb_spec (ev_id r) (data_id (event_data e))) as [E|E].
    + assert (r = e) as -> by (apply (NoDup_map_eq ev_id (webhook_events db)); auto).
      apply attempt_on_pending_row; auto.
    + auto.
Qed.

Lemma processWebhookEvent_keeps_terminal db e now clock axios_post r :
  outbox_ok db -> In e (webhook_events db) -> ev_status e = EvPending ->
  In r (webhook_events db) -> ev_status r <> EvPending ->
  In r (webhook_events (processWebhookEvent db (event_data e) now clock axios_post)).
Proof.
  intros [N _] I S Ir T. rewrite processWebhookEvent_rows.
  apply sql_update_keeps; [exact Ir|].
  apply String.eqb_neq. intros E. apply T.
  assert (r = e) as -> by (apply (NoDup_map_eq ev_id (webhook_events db)); auto).
  exact S.
Qed.

Lemma dispatch_keeps_outbox_ok db t : outbox_ok db -> outbox_ok (dispatch db t).
Proof.
  intros O. unfold dispatch.
  destruct (nth_error _ _) as [e|] eqn:E; [|exact O].
  apply nth_error_In, pendingEvents_in in E. destruct E as [I S].
  apply processWebhookEvent_keeps_outbox_ok; assumption.
Qed.

Lemma dispatch_keeps_terminal db t r :
  outbox_ok db -> In r (webhook_events db) -> ev_status r <> EvPending ->
  In r (webhook_events (dispatch db t)).
Proof.
  intros O Ir T. unfold dispatch.
  destruct (nth_error _ _) as [e|] eqn:E; [|exact Ir].
  apply nth_error_In, pendingEvents_in in E. destruct E as [I S].
  apply processWebhookEvent_keeps_terminal; assumption.
Qed.

Lemma dispatch_all_keeps db ticks :
  outbox_ok db ->
  outbox_ok (dispatch_all db ticks)
  /\ forall r, In r (webhook_events db) -> ev_status r <> EvPending ->
               In r (webhook_events (dispatch_all db ticks)).
Proof.
  revert db. induction ticks as [|t ticks IH]; intros db O; simpl.
  - split; [exact O | auto].
  - destruct (IH (dispatch db t) (dispatch_keeps_outbox_ok t O)) as [O' K].
    split; [exact O'|]. intros r Ir T. apply K; [|exact T].
    apply dispatch_keeps_terminal; assumption.
Qed.

(** C8. When the delivery of an event fails at attempt [n = retry_count + 1]
    and [n < max_retries], every row of the event gets [retry_count = n],
    [next_retry = now + 2^n * 60] seconds and [last_error] = the message of
    the error, and keeps its status; the delays for [n = 1..5] are 2, 4, 8,
    16 and 32 minutes. *)
Theorem failed_delivery_schedules_retry :
  forall db eventData now clock axios_post name message,
    delivery db eventData clock axios_post = Some (Throws name message) ->
    (0 <= data_retry_count eventData)%Z ->
    let n := (data_retry_count eventData + 1)%Z in
    (n < data_max_retries eventData)%Z ->
    let db' := processWebhookEvent db eventData now clock axios_post in
    (forall e, In e (webhook_events db) -> ev_id e = data_id eventData ->
       exists e', In e' (webhook_events db') /\ ev_id e' = ev_id e
                  /\ ev_status e' = ev_status e)
    /\ (forall e', In e' (webhook_events db') -> ev_id e' = data_id eventData ->
          ev_retry_count e' = n
          /\ ev_next_retry e' = Some (now + 2 ^ n * 60)%Z
          /\ ev_last_error e' = Some message)
    /\ map backoffSeconds [1; 2; 3; 4; 5]%Z
       = [2 * 60; 4 * 60; 8 * 60; 16 * 60; 32 * 60]%Z.
Proof.
  intros db eventData now clock axios_post name message D R n B db'.
  assert (webhook_events db'
          = sql_update (fun e => ev_id e =? data_id eventData)
              (set_ev_retry n (now + backoffSeconds n) message) (webhook_events db)) as Rows.
  { unfold db'. rewrite processWebhookEvent_rows, D. simpl. fold n.
    destruct (Z.leb_spec (data_max_retries eventData) n); [lia | reflexivity]. }
  rewrite Rows. split; [|split].
  - intros e I E. exists (set_ev_retry n (now + backoffSeconds n) message e).
    split; [|split; reflexivity].
    apply sql_update_sets; [exact I|]. apply String.eqb_eq. exact E.
  - intros e' I' E'. apply in_sql_update in I'. destruct I' as (r & Ir & ->).
    destruct (String.eqb_spec (ev_id r) (data_id eventData)) as [Y|Nn].
    + simpl. repeat split.
    + contradiction.
  - reflexivity.
Qed.

Lemma failed_delivery_schedules_retry_witness :
  let db := mkDB [] [] [a_webhook "wh_1" ["payment.completed"] true]
                 [an_event EvPending 0] [] in
  let eventData := event_data (an_event EvPending 0) in
  let db' := processWebhookEvent db eventData 1000 1000000 receiver_down in
  delivery db eventData 1000000 receiver_down
  = Some (Throws "ReferenceError" "webhookUrl is not defined")
  /\ (0 <= data_retry_count eventData)%Z
  /\ (data_retry_count eventData + 1 < data_max_retries eventData)%Z
  /\ (forall e', In e' (webhook_events db') -> ev_id e' = "evt_0" ->
        ev_retry_count e' = 1%Z
        /\ ev_next_retry e' = Some (1000 + 2 ^ 1 * 60)%Z
        /\ ev_last_error e' = Some "webhookUrl is not defined").
Proof.
  intros db eventData db'.
  assert (delivery db eventData 1000000 receiver_down
          = Some (Throws "ReferenceError" "webhookUrl is not defined")) as D
    by (vm_compute; reflexivity).
  assert (0 <= data_retry_count eventData)%Z as R by (simpl; lia).
  assert (data_retry_count eventData + 1 < data_max_retries eventData)%Z as B
    by (simpl; lia).
  split; [exact D|]. split; [exact R|]. split; [exact B|].
  destruct (@failed_delivery_schedules_retry db eventData 1000 1000000 receiver_down
              "ReferenceError" "webhookUrl is not defined" D R B) as (_ & Fields & _).
  exact Fields.
Defined.

(** C7 (amended). From an outbox whose rows are as the processor inserts
    them and the dispatcher leaves them, whatever attempts the dispatcher
    makes on rows its poller selected: [retry_count] never exceeds
    [max_retries]; a row that is [completed] or [failed] is not selected
    again and stays as it is; and an attempt turns the row [failed] exactly
    when the delivery failed and brought [retry_count] to [max_retries]. *)
Theorem dispatcher_respects_retry_budget :
  forall db ticks,
    outbox_ok db ->
    let db' := dispatch_all db ticks in
    Forall (fun e => (ev_retry_count e <= ev_max_retries e)%Z
                     /\ (ev_status e = EvFailed -> ev_retry_count e = ev_max_retries e))
           (webhook_events db')
    /\ (forall e, In e (webhook_events db) -> ev_status e <> EvPending ->
          In e (webhook_events db'))
    /\ (forall t e,
          nth_error (pendingEvents db' (tick_now t)) (tick_pick t) = Some e ->
          exists e', In e' (webhook_events (dispatch db' t)) /\ ev_id e' = ev_id e
            /\ (ev_status e' = EvFailed <->
                delivery_failed (delivery db' (event_data e) (tick_clock t) (tick_axios t))
                  = true
                /\ ev_retry_count e' = ev_max_retries e')).
Proof.
  intros db ticks O db'.
  destruct (dispatch_all_keeps ticks O) as [O' K]. fold db' in O', K.
  split; [|split].
  - destruct O' as [_ A]. eapply Forall_impl; [|exact A].
    intros e (R & _ & F & _). split; [lia | exact F].
  - exact K.
  - intros t e E. unfold dispatch. rewrite E.
    apply nth_error_In, pendingEvents_in in E. destruct E as [I S].
    destruct O' as [_ A]. rewrite Forall_forall in A.
    destruct (attempt_on_pending_row (tick_now t) (tick_clock t) (tick_axios t)
                (A e I) S) as [_ F].
    eexists. split; [|split; [|exact F]].
    + rewrite processWebhookEvent_rows. apply sql_update_sets; [exact I|].
      apply String.eqb_refl.
    + apply attempt_update_id.
Qed.

Lemma dispatcher_respects_retry_budget_witness :
  let db := mkDB [] [] [a_webhook "wh_1" ["payment.completed"] true]
                 [an_event EvPending 4] [] in
  let db' := dispatch_all db [mkTick 1000 1000000 receiver_down 0] in
  outbox_ok db
  /\ Forall (fun e => (ev_retry_count e <= ev_max_retries e)%Z
                      /\ (ev_status e = EvFailed -> ev_retry_count e = ev_max_retries e))
            (webhook_events db').
Proof.
  intros db db'.
  assert (outbox_ok db) as O.
  { split.
    - simpl. constructor; [intros []|constructor].
    - constructor; [|constructor]. unfold event_row_ok. simpl.
      split; [lia|]. split; [lia|]. split; [discriminate|].
      eexists. split; [left; reflexivity | reflexivity]. }
  split; [exact O|].
  destruct (@dispatcher_respects_retry_budget db [mkTick 1000 1000000 receiver_down 0] O)
    as (Budget & _).
  exact Budget.
Defined.

(** C7, as stated, fails: a job handled once more after its row became
    [completed] (the queue delivers at least once) still updates the row,
    here to [failed]. *)
Lemma replayed_job_changes_completed_row :
  let db := mkDB [] [] [a_webhook "wh_1" ["payment.completed"] true]
                 [an_event EvCompleted 4] [] in
  let db' := processWebhookEvent db (event_data (an_event EvPending 4)) 1000 1000000
               receiver_down in
  map ev_status (webhook_events db) = [EvCompleted]
  /\ map ev_status (webhook_events db') = [EvFailed]
  /\ webhook_events db' <> webhook_events db.
Proof.
  vm_compute. repeat split. discriminate.
Qed.

(** ** The payment processor *)

Lemma processPayment_payments db data isSuccess gen :
  payments (snd (processPayment db data isSuccess gen))
  = sql_update (fun p => pay_id p =? job_paymentId data)
      (set_pay_status (outcome_status isSuccess)) (payments db).
Proof. destruct isSuccess; reflexivity. Qed.

Lemma processPayment_events db data isSuccess gen :
  exists payload,
    webhook_events (snd (processPayment db data isSuccess gen))
    = (webhook_events db
       ++ map (fun iw => new_event (outcome_event isSuccess) payload EvPending
                           (gen (fst iw)) (snd iw))
            (combine (seq (List.length (webhook_events db))
                          (List.length (filter wh_active (webhooks db))))
                     (filter wh_active (webhooks db))))%list.
Proof. destruct isSuccess; eexists; reflexivity. Qed.

Lemma processPayment_webhooks db data isSuccess gen :
  webhooks (snd (processPayment db data isSuccess gen)) = webhooks db.
Proof. destruct isSuccess; reflexivity. Qed.

Lemma skipn_length_app {A : Type} (l rows : list A) :
  skipn (List.length l) (l ++ rows) = rows.
Proof. induction l as [|x l IH]; simpl; auto. Qed.

Lemma bound_new_events event_type payload status gen k (ws : list Webhook) :
  forall first,
    List.length
      (filter (fun e => ev_webhook_id e =? k)
         (map (fun iw => new_event event_type payload status (gen (fst iw)) (snd iw))
              (combine (seq first (List.length ws)) ws)))
    = List.length (filter (fun w => wh_id w =? k) ws).
Proof.
  induction ws as [|w ws IH]; intros first; simpl; [reflexivity|].
  destruct (wh_id w =? k); simpl; rewrite IH; reflexivity.
Qed.

Lemma filter_key_absent k (ws : list Webhook) :
  ~ In k (map wh_id ws) -> filter (fun w => wh_id w =? k) ws = [].
Proof.
  induction ws as [|w ws IH]; simpl; intros N; [reflexivity|].
  destruct (String.eqb_spec (wh_id w) k) as [E|E].
  - exfalso. apply N. left. exact E.
  - apply IH. intros I. apply N. right. exact I.
Qed.

(** With distinct identifiers, the active rows that carry the identifier
    of [w] are [w] itself, if it is active. *)
Lemma active_rows_of (ws : list Webhook) (w : Webhook) :
  NoDup (map wh_id ws) -> In w ws ->
  List.length (filter (fun w' => wh_id w' =? wh_id w) (filter wh_active ws))
  = if wh_active w then 1%nat else 0%nat.
Proof.
  induction ws as [|x ws IH]; simpl; intros N I; [contradiction|].
  inversion N as [|? ? Nx Nws]; subst.
  assert (forall k, ~ In k (map wh_id ws) ->
                    filter (fun w' => wh_id w' =? k) (filter wh_active ws) = []) as Absent.
  { intros k Nk. apply filter_key_absent. intros J. apply Nk.
    apply in_map_iff in J. destruct J as (y & Ey & Jy). apply filter_In in Jy.
    apply in_map_iff. exists y. tauto. }
  destruct I as [-> | I].
  - destruct (wh_active w); simpl.
    + rewrite String.eqb_refl. simpl. rewrite (Absent _ Nx). reflexivity.
    + rewrite (Absent _ Nx). reflexivity.
  - assert (wh_id x <> wh_id w) as D.
    { intros E. apply Nx. rewrite E. apply in_map. exact I. }
    destruct (wh_active x); simpl.
    + apply String.eqb_neq in D. rewrite D. apply IH; assumption.
    + apply IH; assumption.
Qed.

Lemma new_event_ids event_type payload status gen (ws : list Webhook) :
  forall first,
    map ev_id
      (map (fun iw => new_event event_type payload status (gen (fst iw)) (snd iw))
           (combine (seq first (List.length ws)) ws))
    = map gen (seq first (List.length ws)).
Proof.
  induction ws as [|w ws IH]; intros first; simpl; [reflexivity|].
  rewrite IH. reflexivity.
Qed.

(** The rows the processor inserts start with [retry_count = 0] under
    [max_retries = 5], bound to a subscription of the table: with fresh
    identifiers, the outbox stays as the dispatcher expects it. *)
Lemma processPayment_keeps_outbox_ok db data isSuccess gen :
  outbox_ok db ->
  NoDup (map ev_id (webhook_events db)
         ++ map gen (seq (List.length (webhook_events db))
                         (List.length (filter wh_active (webhooks db))))) ->
  outbox_ok (snd (processPayment db data isSuccess gen)).
Proof.
  intros [N A] Fresh.
  destruct (processPayment_events db data isSuccess gen) as [payload E].
  unfold outbox_ok. rewrite E. split.
  - rewrite map_app, new_event_ids. exact Fresh.
  - apply Forall_app. split.
    + eapply Forall_impl; [|exact A]. intros e O.
      apply event_row_ok_webhooks with (db := db);
        [apply processPayment_webhooks | exact O].
    + apply Forall_forall. intros e I. apply in_map_iff in I.
      destruct I as ((i & w) & <- & I). apply in_combine_r in I.
      apply filter_In in I. destruct I as [I _].
      apply event_row_ok_webhooks with (db := db); [apply processPayment_webhooks|].
      unfold event_row_ok. simpl. split; [lia|]. split; [lia|].
      split; [discriminate|]. exists w. split; [exact I | reflexivity].
Qed.

(** C5 (amended). When the processor writes [completed] or [failed], the
    rows it inserts into [webhook_events] in that transaction are [pending]
    rows of the emitted event type: exactly one for every subscription that
    is active, whatever its [events] list holds, and none for a
    subscription that is inactive. *)
Theorem outbox_rows_follow_active_flag :
  forall db data isSuccess gen,
    NoDup (map wh_id (webhooks db)) ->
    let db' := snd (processPayment db data isSuccess gen) in
    let rows := inserted_events db db' in
    webhook_events db' = (webhook_events db ++ rows)%list
    /\ Forall (fun e => ev_status e = EvPending
                        /\ ev_event_type e = outcome_event isSuccess) rows
    /\ List.length rows = List.length (filter wh_active (webhooks db))
    /\ forall w, In w (webhooks db) ->
         List.length (bound_to w rows) = if wh_active w then 1%nat else 0%nat.
Proof.
  intros db data isSuccess gen N db' rows.
  destruct (processPayment_events db data isSuccess gen) as [payload E].
  fold db' in E.
  assert (rows = map (fun iw => new_event (outcome_event isSuccess) payload EvPending
                                  (gen (fst iw)) (snd iw))
                     (combine (seq (List.length (webhook_events db))
                                   (List.length (filter wh_active (webhooks db))))
                              (filter wh_active (webhooks db)))) as R.
  { unfold rows, inserted_events. rewrite E. apply skipn_length_app. }
  split; [rewrite R; exact E|]. split; [|split].
  - rewrite R. apply Forall_forall. intros e I. apply in_map_iff in I.
    destruct I as (iw & <- & _). split; reflexivity.
  - rewrite R, length_map, length_combine, length_seq. apply Nat.min_id.
  - intros w I. unfold bound_to. rewrite R, bound_new_events.
    apply active_rows_of; assumption.
Qed.

Lemma outbox_rows_follow_active_flag_witness :
  let db := a_db PayPending []
              [a_webhook "wh_1" ["payment.completed"] true;
               a_webhook "wh_2" ["payment.completed"] false] in
  NoDup (map wh_id (webhooks db))
  /\ List.length (inserted_events db (snd (processPayment db a_job true uuid_of_nat)))
     = 1%nat.
Proof.
  intros db.
  assert (NoDup (map wh_id (webhooks db))) as N.
  { simpl. constructor; [intros [H|[]]; discriminate|].
    constructor; [intros []|constructor]. }
  split; [exact N|].
  destruct (@outbox_rows_follow_active_flag db a_job true uuid_of_nat N)
    as (_ & _ & L & _).
  exact L.
Defined.

(** C5, as stated, fails: a subscription that is active and listens only
    to [refund.created] gets a row for [payment.completed]. *)
Lemma unsubscribed_webhook_gets_event :
  let w := a_webhook "wh_1" ["refund.created"] true in
  let db := a_db PayPending [] [w] in
  let db' := snd (processPayment db a_job true uuid_of_nat) in
  existsb (String.eqb "payment.completed") (wh_events w) = false
  /\ map (fun e => (ev_webhook_id e, ev_event_type e, ev_status e))
         (inserted_events db db')
     = [("wh_1", "payment.completed", EvPending)].
Proof. vm_compute. split; reflexivity. Qed.

(** The first run of the processor on a pending payment follows the
    transitions of the specification; so does the status intake writes. *)
Lemma outcome_status_from_pending isSuccess :
  spec_transition PayPending (outcome_status isSuccess) = true.
Proof. destruct isSuccess; reflexivity. Qed.

(** Intake writes the payment as [pending] and records the response
    under the key for 24 hours. *)
Lemma post_payment_writes_pending w header body uuid1 uuid2 now :
  let result := post_payment w header body uuid1 uuid2 now in
  res_status (fst result) = 201 ->
  exists p key,
    payments (world_db (snd result)) = (payments (world_db w) ++ [p])%list
    /\ pay_id p = uuid2 /\ pay_status p = PayPending
    /\ idempotency_keys (world_db (snd result))
       = (idempotency_keys (world_db w) ++ [key])%list
    /\ ik_expires_at key = now + idempotency_ttl_seconds.
Proof.
  unfold post_payment.
  destruct (idempotencyMiddleware (world_db w) header) as [replay|] eqn:M.
  - unfold idempotencyMiddleware in M. destruct (truthy header); [|discriminate].
    destruct (filter _ _); [discriminate|]. injection M as <-. simpl. discriminate.
  - destruct (body_amount body) as [amount|]; simpl; [|discriminate].
    destruct (amount <=? 0)%Z; simpl; [discriminate|].
    destruct (truthy (body_customer_email body)); simpl; [|discriminate].
    destruct (filter _ (payments (world_db w))); simpl; [|discriminate].
    intros _. eexists. eexists. repeat split.
Qed.

(** C4 (amended). Intake creates a payment as [pending]. A run of the
    payment processor writes [completed] (on success) or [failed] (on
    failure) into every row of the payment the job names, whatever status
    the row had, and leaves the rows of the other payments, the
    identifiers and the amounts as they were; when the row was [pending]
    this is a transition the specification allows. *)
Theorem processPayment_overwrites_status :
  forall db data isSuccess gen p,
    In p (payments db) ->
    let db' := snd (processPayment db data isSuccess gen) in
    (pay_id p = job_paymentId data ->
       In (set_pay_status (outcome_status isSuccess) p) (payments db')
       /\ (pay_status p = PayPending ->
           spec_transition (pay_status p) (outcome_status isSuccess) = true))
    /\ (pay_id p <> job_paymentId data -> In p (payments db'))
    /\ map pay_id (payments db') = map pay_id (payments db)
    /\ map pay_amount (payments db') = map pay_amount (payments db)
    /\ (forall w header body uuid1 uuid2 now,
          let created := post_payment w header body uuid1 uuid2 now in
          res_status (fst created) = 201 ->
          exists q, payments (world_db (snd created)) = (payments (world_db w) ++ [q])%list
                    /\ pay_status q = PayPending).
Proof.
  intros db data isSuccess gen p I db'. unfold db'.
  rewrite processPayment_payments. split; [|split; [|split; [|split]]].
  - intros E. split.
    + apply sql_update_sets; [exact I|]. apply String.eqb_eq. exact E.
    + intros ->. apply outcome_status_from_pending.
  - intros D. apply sql_update_keeps; [exact I|]. apply String.eqb_neq. exact D.
  - apply sql_update_map. reflexivity.
  - apply sql_update_map. reflexivity.
  - intros w header body uuid1 uuid2 now C.
    destruct (post_payment_writes_pending w header body uuid1 uuid2 now C)
      as (q & key & P & _ & S & _).
    exists q. split; assumption.
Qed.

Lemma processPayment_overwrites_status_witness :
  let db := a_db PayFailed [] [] in
  In (a_payment PayFailed) (payments db)
  /\ In (a_payment PayCompleted) (payments (snd (processPayment db a_job true uuid_of_nat))).
Proof.
  intros db.
  assert (In (a_payment PayFailed) (payments db)) as I by (left; reflexivity).
  split; [exact I|].
  destruct (@processPayment_overwrites_status db a_job true uuid_of_nat _ I)
    as (Same & _).
  destruct (Same eq_refl) as [J _]. exact J.
Defined.

(** C4, as stated, fails: the job of a payment delivered a second time
    turns [completed] into [failed], which is no transition of the
    specification. *)
Lemma redelivered_job_moves_completed_to_failed :
  let db0 := a_db PayPending [] [] in
  let db1 := snd (processPayment db0 a_job true uuid_of_nat) in
  let db2 := snd (processPayment db1 a_job false uuid_of_nat) in
  map (fun db => payment_status db "pay_1") [db0; db1; db2]
  = [Some PayPending; Some PayCompleted; Some PayFailed]
  /\ spec_transition PayCompleted PayFailed = false.
Proof. vm_compute. split; reflexivity. Qed.

(** ** The idempotency lookup *)

Lemma filter_nonempty_iff {A : Type} (f : A -> bool) (l : list A) :
  filter f l <> [] <-> exists x, In x l /\ f x = true.
Proof.
  split.
  - destruct (filter f l) as [|x rest] eqn:F; [intros N; contradiction N; reflexivity|].
    intros _. exists x. apply filter_In. rewrite F. left. reflexivity.
  - intros (x & I & T) F. assert (In x (filter f l)) as J by (apply filter_In; auto).
    rewrite F in J. exact J.
Qed.

Lemma idempotency_filter_expiry (f : IdempotencyKey -> Z) key (t : list IdempotencyKey) :
  map ik_response
    (filter (fun r => ik_key r =? key) (map (fun r => set_ik_expires_at (f r) r) t))
  = map ik_response (filter (fun r => ik_key r =? key) t).
Proof.
  induction t as [|r t IH]; simpl; [reflexivity|].
  destruct (ik_key r =? key); simpl; rewrite IH; reflexivity.
Qed.

(** C6 (amended). With a non-empty [Idempotency-Key] header, the
    middleware answers 200 with the recorded response if and only if a
    record of the key exists; [expires_at] plays no part, so an expired
    record is replayed like any other. *)
Theorem idempotency_lookup_ignores_expiry :
  forall db key,
    key <> EmptyString ->
    ((exists r, idempotencyMiddleware db (Some key) = Some r)
     <-> exists row, In row (idempotency_keys db) /\ ik_key row = key)
    /\ (forall r, idempotencyMiddleware db (Some key) = Some r ->
          res_status r = 200%Z
          /\ exists row, In row (idempotency_keys db) /\ ik_key row = key
                         /\ res_body r = ik_response row)
    /\ (forall f : IdempotencyKey -> Z,
          idempotencyMiddleware
            (with_idempotency_keys db
               (map (fun r => set_ik_expires_at (f r) r) (idempotency_keys db)))
            (Some key)
          = idempotencyMiddleware db (Some key)).
Proof.
  intros db key K.
  assert (truthy (Some key) = Some key) as T by (destruct key; [contradiction|reflexivity]).
  unfold idempotencyMiddleware. rewrite T. split; [|split].
  - split.
    + intros [r E]. destruct (filter _ _) as [|row rest] eqn:F; [discriminate|].
      assert (In row (filter (fun r => ik_key r =? key) (idempotency_keys db))) as I
        by (rewrite F; left; reflexivity).
      apply filter_In in I. exists row. split; [tauto|]. apply String.eqb_eq. tauto.
    + intros (row & I & E).
      destruct (filter _ _) as [|row' rest] eqn:F; [|eexists; reflexivity].
      exfalso. apply (filter_nonempty_iff (fun r => ik_key r =? key) (idempotency_keys db));
        [|exact F].
      exists row. split; [exact I|]. apply String.eqb_eq. exact E.
  - intros r E. destruct (filter _ _) as [|row rest] eqn:F; [discriminate|].
    injection E as <-. split; [reflexivity|]. exists row.
    assert (In row (filter (fun r => ik_key r =? key) (idempotency_keys db))) as I
      by (rewrite F; left; reflexivity).
    apply filter_In in I. destruct I as [I E]. apply String.eqb_eq in E. auto.
  - intros f. simpl.
    pose proof (idempotency_filter_expiry f key (idempotency_keys db)) as M.
    destruct (filter _ (map _ _)) as [|a ra]; destruct (filter _ (idempotency_keys db)) as [|b rb];
      simpl in M; try discriminate; [reflexivity|].
    injection M as -> _. reflexivity.
Qed.

Lemma idempotency_lookup_ignores_expiry_witness :
  let db := mkDB [] [] [] [] [a_key_row 1000] in
  "K1" <> EmptyString
  /\ idempotencyMiddleware
       (with_idempotency_keys db
          (map (fun r => set_ik_expires_at 0 r) (idempotency_keys db))) (Some "K1")
     = idempotencyMiddleware db (Some "K1").
Proof.
  intros db.
  assert ("K1" <> EmptyString) as K by discriminate.
  split; [exact K|].
  destruct (@idempotency_lookup_ignores_expiry db "K1" K) as (_ & _ & E).
  exact (E (fun _ => 0%Z)).
Defined.

(** C6, as stated, fails: a record that expired at 1000 is still replayed
    with status 200 at 2000, where the lookup of the specification finds
    nothing. *)
Lemma expired_record_is_replayed :
  let db := mkDB [] [] [] [] [a_key_row 1000] in
  idempotencyMiddleware db (Some "K1") = Some (mkResponse 200 (JObj [("id", JStr "pay_1")]))
  /\ spec_lookupIdempotent 2000 db "K1" = None.
Proof. vm_compute. split; reflexivity. Qed.

(** ** Refunds *)

(** The handler answers 201 on no path: the webhook it sends after the
    commit is sent without a subscription, which always throws. *)
Lemma post_payment_refund_statuses db header paymentId amount reason refundId now clock
    axios_post :
  In (res_status (fst (post_payment_refund db header paymentId amount reason refundId
                         now clock axios_post)))
     [200; 404; 400; 500]%Z.
Proof.
  unfold post_payment_refund, idempotencyMiddleware.
  destruct (truthy header) as [key|].
  - destruct (filter _ (idempotency_keys db)); simpl; auto.
    destruct (filter _ (payments db)); simpl; auto.
    destruct (_ <? _)%Z; simpl; auto.
  - destruct (filter _ (payments db)); simpl; auto.
    destruct (_ <? _)%Z; simpl; auto.
Qed.

(** A payment that is not in the table: 404, and nothing is written. *)
Lemma refund_of_unknown_payment db header paymentId amount reason refundId now clock
    axios_post :
  idempotencyMiddleware db header = None ->
  (forall p, In p (payments db) -> pay_id p <> paymentId) ->
  post_payment_refund db header paymentId amount reason refundId now clock axios_post
  = (mkResponse 404 (error_body "Payment not found"), db).
Proof.
  intros M A. unfold post_payment_refund. rewrite M.
  destruct (filter _ (payments db)) as [|p rest] eqn:F; [reflexivity|].
  exfalso. assert (In p (filter (fun p => pay_id p =? paymentId) (payments db))) as I
    by (rewrite F; left; reflexivity).
  apply filter_In in I. destruct I as [I E]. apply String.eqb_eq in E.
  exact (A p I E).
Qed.

(** An answer 404 or 400 leaves the database as it was. *)
Lemma refund_rejected_leaves_db db header paymentId amount reason refundId now clock
    axios_post :
  let result := post_payment_refund db header paymentId amount reason refundId now clock
                  axios_post in
  res_status (fst result) <> 500%Z -> snd result = db.
Proof.
  unfold post_payment_refund.
  destruct (idempotencyMiddleware db header); simpl; [reflexivity|].
  destruct (filter _ (payments db)); simpl; [reflexivity|].
  destruct (_ <? _)%Z; simpl; [reflexivity|]. intros N. contradiction N. reflexivity.
Qed.

(** What the handler checks before it inserts: the payment exists and the
    amount asked for does not exceed the payment's own amount. *)
Lemma refund_is_inserted db header paymentId amount reason refundId now clock axios_post
    p rest :
  idempotencyMiddleware db header = None ->
  filter (fun p => pay_id p =? paymentId) (payments db) = p :: rest ->
  let refundAmount :=
    match amount with
    | Some a => if (a =? 0)%Z then pay_amount p else a
    | None => pay_amount p
    end in
  (refundAmount <= pay_amount p)%Z ->
  post_payment_refund db header paymentId amount reason refundId now clock axios_post
  = (mkResponse 500 (error_body "Refund processing failed"),
     with_refunds db
       (refunds db ++ [mkRefund refundId paymentId refundAmount reason RefPending now])%list).
Proof.
  intros M F refundAmount L. unfold post_payment_refund. rewrite M, F. fold refundAmount.
  destruct (Z.ltb_spec (pay_amount p) refundAmount); [lia | reflexivity].
Qed.

(** C1: the code at the scenario of the specification. A payment of 100.00
    is refunded 60.00, then 50.00: both refunds are committed, the second
    is not answered 400, and the refunds that count add up to 110.00. *)
Lemma refund_beyond_remaining_is_committed :
  let db0 := a_db PayCompleted [] [] in
  let step1 := post_payment_refund db0 None "pay_1" (Some 6000%Z) None "ref_1" 5 5000
                 receiver_ok in
  let step2 := post_payment_refund (snd step1) None "pay_1" (Some 5000%Z) None "ref_2" 6 6000
                 receiver_ok in
  map pay_amount (payments (snd step2)) = [10000%Z]
  /\ refunded_total (snd step1) "pay_1" = 6000%Z
  /\ res_status (fst step2) = 500%Z
  /\ map ref_amount (refunds (snd step2)) = [6000; 5000]%Z
  /\ refunded_total (snd step2) "pay_1" = 11000%Z.
Proof. vm_compute. repeat split. Qed.

(** C2: the code on a payment that is still [pending]. The refund is
    committed and the answer is not 400. *)
Lemma refund_of_pending_payment_is_committed :
  let db := a_db PayPending [] [] in
  let result := post_payment_refund db None "pay_1" (Some 2000%Z) None "ref_1" 5 5000
                  receiver_ok in
  payment_status db "pay_1" = Some PayPending
  /\ res_status (fst result) = 500%Z
  /\ refunds (snd result) = [mkRefund "ref_1" "pay_1" 2000 None RefPending 5].
Proof. vm_compute. repeat split. Qed.

(** C3 (amended). The refund handler never writes the [payments] table:
    when it creates a refund, a [pending] row of the payment, the parent
    payment keeps the status it had, whether or not its refunds now add up
    to its amount. *)
Theorem refund_leaves_payments_untouched :
  forall db header paymentId amount reason refundId now clock axios_post,
    let db' := snd (post_payment_refund db header paymentId amount reason refundId now
                      clock axios_post) in
    payments db' = payments db
    /\ (forall id, payment_status db' id = payment_status db id)
    /\ (refunds db' = refunds db
        \/ exists refundAmount,
             refunds db'
             = (refunds db
                ++ [mkRefund refundId paymentId refundAmount reason RefPending now])%list).
Proof.
  intros db header paymentId amount reason refundId now clock axios_post db'.
  assert (payments db' = payments db
          /\ (refunds db' = refunds db
              \/ exists refundAmount,
                   refunds db'
                   = (refunds db
                      ++ [mkRefund refundId paymentId refundAmount reason RefPending now])%list))
    as [P R].
  { unfold db', post_payment_refund.
    destruct (idempotencyMiddleware db header); simpl; [auto|].
    destruct (filter _ (payments db)); simpl; [auto|].
    destruct (_ <? _)%Z; simpl; [auto|]. split; [reflexivity|]. right. eexists. reflexivity. }
  split; [exact P|]. split; [|exact R].
  intros id. unfold payment_status. rewrite P. reflexivity.
Qed.

(** C3, as stated, fails: after a refund of the whole amount of a
    [completed] payment the payment is still [completed], and after a
    partial one as well. *)
Lemma full_refund_leaves_payment_completed :
  let db := a_db PayCompleted [] [] in
  let full := snd (post_payment_refund db None "pay_1" None None "ref_1" 5 5000 receiver_ok) in
  let part := snd (post_payment_refund db None "pay_1" (Some 2000%Z) None "ref_1" 5 5000
                     receiver_ok) in
  refunded_total full "pay_1" = 10000%Z
  /\ payment_status full "pay_1" = Some PayCompleted
  /\ refunded_total part "pay_1" = 2000%Z
  /\ payment_status part "pay_1" = Some PayCompleted.
Proof. vm_compute. repeat split. Qed.

(** ** The signer *)

Lemma hex_of_bytes_length (bs : list N) :
  String.length (hex_of_bytes bs) = (2 * List.length bs)%nat.
Proof. induction bs as [|b bs IH]; simpl; [reflexivity | rewrite IH; lia]. Qed.

Lemma digest_length (msg : list N) : List.length (SHA256.digest msg) = 32%nat.
Proof. reflexivity. Qed.

(** The digest in hexadecimal has 64 characters. *)
Lemma hmac_sha256_hex_length key message :
  String.length (hmac_sha256_hex key message) = 64%nat.
Proof.
  unfold hmac_sha256_hex, SHA256.hmac. rewrite hex_of_bytes_length, digest_length.
  reflexivity.
Qed.

Lemma generateSignature_length payload secret timestamp :
  String.length (generateSignature payload secret timestamp) = 64%nat.
Proof. apply hmac_sha256_hex_length. Qed.

(** A string and the object it serialises are signed alike. *)
Lemma generateSignature_of_serialised payload secret timestamp :
  (forall s, payload <> JStr s) ->
  generateSignature (JStr (JSON_stringify payload)) secret timestamp
  = generateSignature payload secret timestamp.
Proof.
  intros N. destruct payload; try reflexivity. contradiction (N s). reflexivity.
Qed.

(** C9 (amended). The signature is the lowercase hexadecimal HMAC-SHA256,
    under the secret, of the timestamp, a dot and the body (the payload
    itself when it is a string, its JSON otherwise). Verifying it with the
    same secret, timestamp and payload within the tolerance returns true.
    When the timestamp is a number farther than the tolerance from the
    current time, verification returns false whatever else is presented.
    Within the tolerance, for a presented signature of 64 bytes and any
    payload and secret, verification returns whether the signature is the
    digest recomputed from them: false for every other signature of that
    length, and false for a changed payload or secret exactly when their
    digest differs. *)
Theorem signature_round_trip :
  forall payload secret timestamp tolerance now,
    let signature := generateSignature payload secret timestamp in
    let tol := tolerance_or_default tolerance in
    signature = hmac_sha256_hex secret (timestamp ++ "." ++ payloadString payload)
    /\ (forall s, payloadString (JStr s) = s)
    /\ (forall v, (forall s, v <> JStr s) -> payloadString v = JSON_stringify v)
    /\ (outside_tolerance timestamp tol now = false ->
        verifyWebhookSignature payload signature secret timestamp tolerance now
        = Returns true)
    /\ (forall t, parseInt timestamp = Some t -> (tol < Z.abs (now - t))%Z ->
        forall payload' signature' secret',
          verifyWebhookSignature payload' signature' secret' timestamp tolerance now
          = Returns false)
    /\ (outside_tolerance timestamp tol now = false ->
        forall payload' signature' secret',
          String.length signature' = 64%nat ->
          verifyWebhookSignature payload' signature' secret' timestamp tolerance now
          = Returns (signature' =? generateSignature payload' secret' timestamp)).
Proof.
  intros payload secret timestamp tolerance now signature tol.
  split; [reflexivity|]. split; [reflexivity|]. split; [|split; [|split]].
  - intros v N. destruct v; try reflexivity. contradiction (N s). reflexivity.
  - intros W. unfold verifyWebhookSignature. fold (tolerance_or_default tolerance).
    fold tol. rewrite W. unfold timingSafeEqual.
    rewrite Nat.eqb_refl, String.eqb_refl. reflexivity.
  - intros t P F payload' signature' secret'.
    unfold verifyWebhookSignature. fold (tolerance_or_default tolerance). fold tol.
    unfold outside_tolerance. rewrite P.
    destruct (Z.ltb_spec tol (Z.abs (now - t))); [reflexivity | lia].
  - intros W payload' signature' secret' L.
    unfold verifyWebhookSignature. fold (tolerance_or_default tolerance). fold tol.
    rewrite W. unfold timingSafeEqual.
    rewrite L, generateSignature_length. reflexivity.
Qed.

Lemma signature_round_trip_witness :
  outside_tolerance a_timestamp default_tolerance 1705315990000 = false
  /\ parseInt a_timestamp = Some 1705315870000%Z
  /\ (default_tolerance < Z.abs (1705316230000 - 1705315870000))%Z
  /\ verifyWebhookSignature a_payload (generateSignature a_payload "s" a_timestamp) "s"
       a_timestamp None 1705315990000 = Returns true
  /\ verifyWebhookSignature a_payload (generateSignature a_payload "s" a_timestamp) "s"
       a_timestamp None 1705316230000 = Returns false.
Proof.
  assert (outside_tolerance a_timestamp default_tolerance 1705315990000 = false) as W
    by (vm_compute; reflexivity).
  assert (parseInt a_timestamp = Some 1705315870000%Z) as P by (vm_compute; reflexivity).
  assert (default_tolerance < Z.abs (1705316230000 - 1705315870000))%Z as F
    by (vm_compute; reflexivity).
  split; [exact W|]. split; [exact P|]. split; [exact F|]. split.
  - destruct (@signature_round_trip a_payload "s" a_timestamp None 1705315990000)
      as (_ & _ & _ & T & _).
    exact (T W).
  - destruct (@signature_round_trip a_payload "s" a_timestamp None 1705316230000)
      as (_ & _ & _ & _ & T & _).
    exact (T _ P F a_payload _ "s").
Defined.

(** C9, as stated, fails on each of the three mutations, within the
    tolerance: a signature cut to another length makes the verification
    throw instead of returning false; the secret with a zero byte appended
    verifies (HMAC pads a short key with zero bytes); the payload replaced
    by the string of its own JSON verifies. *)
Lemma mutations_that_do_not_return_false :
  let signature := generateSignature a_payload "s" a_timestamp in
  let now := 1705315870000%Z in
  let secret' := String "s" (String zero EmptyString) in
  let payload' := JStr (JSON_stringify a_payload) in
  ("abc" <> signature
   /\ verifyWebhookSignature a_payload "abc" "s" a_timestamp None now
      = Throws "RangeError" "Input buffers must have the same byte length")
  /\ (secret' <> "s"
      /\ verifyWebhookSignature a_payload signature secret' a_timestamp None now
         = Returns true)
  /\ (payload' <> a_payload
      /\ verifyWebhookSignature payload' signature "s" a_timestamp None now
         = Returns true).
Proof.
  vm_compute. repeat split; discriminate.
Qed.

(** C10. For a timestamp within the tolerance, the verification returns a
    boolean if and only if the presented signature has the 64 bytes of the
    expected hexadecimal digest; with any other length it throws the
    [RangeError] of [crypto.timingSafeEqual]. *)
Theorem verification_throws_on_other_length :
  forall payload signature secret timestamp tolerance now,
    outside_tolerance timestamp (tolerance_or_default tolerance) now = false ->
    let result := verifyWebhookSignature payload signature secret timestamp tolerance now in
    String.length (generateSignature payload secret timestamp) = 64%nat
    /\ (String.length signature <> 64%nat ->
        result = Throws "RangeError" "Input buffers must have the same byte length")
    /\ ((exists b, result = Returns b) <-> String.length signature = 64%nat).
Proof.
  intros payload signature secret timestamp tolerance now W result.
  assert (result
          = if Nat.eqb (String.length signature) 64
            then Returns (signature =? generateSignature payload secret timestamp)
            else Throws "RangeError" "Input buffers must have the same byte length") as R.
  { unfold result, verifyWebhookSignature. fold (tolerance_or_default tolerance).
    rewrite W. unfold timingSafeEqual. rewrite generateSignature_length. reflexivity. }
  split; [apply generateSignature_length|]. rewrite R.
  destruct (Nat.eqb_spec (String.length signature) 64) as [E|E].
  - split; [intros N; contradiction|]. split; [auto | eexists; reflexivity].
  - split; [reflexivity|]. split; [intros [b B]; discriminate | intros L; contradiction].
Qed.

Lemma verification_throws_on_other_length_witness :
  outside_tolerance a_timestamp (tolerance_or_default None) 1705315870000 = false
  /\ verifyWebhookSignature a_payload "deadbeef" "s" a_timestamp None 1705315870000
     = Throws "RangeError" "Input buffers must have the same byte length".
Proof.
  assert (outside_tolerance a_timestamp (tolerance_or_default None) 1705315870000 = false)
    as W by (vm_compute; reflexivity).
  split; [exact W|].
  destruct (@verification_throws_on_other_length a_payload "deadbeef" "s" a_timestamp None
              1705315870000 W) as (_ & T & _).
  apply T. vm_compute. discriminate.
Defined.

(** ** Scenarios of the specification *)

(** Intake writes the payment as [pending], records the response under the
    key for 24 hours and queues one job; the same request again is
    answered 200 with the recorded body and writes nothing. *)
Example idempotent_create_scenario :
  let first := post_payment an_empty_world (Some "K1") a_body "u1" "P1" 100 in
  let again := post_payment (snd first) (Some "K1") a_body "u2" "P2" 200 in
  res_status (fst first) = 201
  /\ map (fun p => (pay_id p, pay_status p)) (payments (world_db (snd first)))
     = [("P1", PayPending)]
  /\ map (fun k => (ik_key k, ik_expires_at k)) (idempotency_keys (world_db (snd first)))
     = [("K1", 100 + 24 * 60 * 60)]
  /\ map job_paymentId (payment_queue (snd first)) = ["P1"]
  /\ res_status (fst again) = 200
  /\ res_body (fst again) = res_body (fst first)
  /\ snd again = snd first.
Proof. vm_compute. repeat split. Qed.

(** A receiver that always answers 500: [retry_count] goes 1, 2, 3, 4 with
    the delay doubling, and the fifth failure ends the row as [failed]
    with [retry_count = 5]; a poll before [next_retry] does not select the
    row, and nothing selects it once it has failed. *)
Example retry_exhaustion_scenario :
  let db := mkDB [] [] [a_webhook "wh_1" ["payment.completed"] true]
                 [an_event EvPending 0] [] in
  map (fun times =>
         map (fun e => (ev_status e, ev_retry_count e, ev_next_retry e))
             (webhook_events (dispatch_all db (map a_tick times))))
      [[0]; [0; 60]; [0; 120]; [0; 120; 360]; [0; 120; 360; 840];
       [0; 120; 360; 840; 1800]; [0; 120; 360; 840; 1800; 5000]]
  = [[(EvPending, 1, Some 120)]; [(EvPending, 1, Some 120)];
     [(EvPending, 2, Some 360)]; [(EvPending, 3, Some 840)];
     [(EvPending, 4, Some 1800)]; [(EvFailed, 5, Some 1800)];
     [(EvFailed, 5, Some 1800)]].
Proof. vm_compute. reflexivity. Qed.

(** * Further properties of the code *)

(** ** services/webhookService.js: delivery and signature *)

Lemma digits_step radix c rest acc d :
  digit_value c = Some d -> (d <? radix)%Z = true ->
  digits radix (String c rest) acc
  = digits radix rest (Some (radix * match acc with Some a => a | None => 0 end + d)%Z).
Proof. intros D R. simpl. rewrite D, R. reflexivity. Qed.

Ltac by_digit IH k :=
  rewrite (@digits_step 10 _ _ _ k) by reflexivity; cbv beta iota;
  rewrite IH by lia; f_equal; unfold uint_value;
  match goal with |- context [(?a =? 0)%Z] => destruct (Z.eqb_spec a 0); try lia end;
  try match goal with |- context [(?a =? 0)%Z] => destruct (Z.eqb_spec a 0); try lia end;
  subst; try reflexivity;
  cbn [Pos.of_uint_acc]; f_equal; f_equal; lia.

Lemma digits_string_of_uint (d : Decimal.uint) :
  forall acc, (0 <= acc)%Z ->
    digits 10 (NilEmpty.string_of_uint d) (Some acc) = Some (uint_value d acc).
Proof.
  induction d; intros acc A; cbn [NilEmpty.string_of_uint].
  - unfold uint_value. simpl. destruct (Z.eqb_spec acc 0) as [->|N]; [reflexivity|].
    destruct acc; try lia; reflexivity.
  - by_digit IHd 0.
  - by_digit IHd 1.
  - by_digit IHd 2.
  - by_digit IHd 3.
  - by_digit IHd 4.
  - by_digit IHd 5.
  - by_digit IHd 6.
  - by_digit IHd 7.
  - by_digit IHd 8.
  - by_digit IHd 9.
Qed.

Lemma parseInt_string_of_uint (d : Decimal.uint) :
  d <> Decimal.Nil ->
  parseInt (NilEmpty.string_of_uint d) = Some (Z.of_N (Pos.of_uint d)).
Proof.
  intros N.
  assert (parseInt (NilEmpty.string_of_uint d)
          = option_map (Z.mul 1) (digits 10 (NilEmpty.string_of_uint d) None)) as ->.
  { destruct d as [|l|l|l|l|l|l|l|l|l|l]; try reflexivity.
    destruct l; reflexivity. }
  assert (digits 10 (NilEmpty.string_of_uint d) None = digits 10 (NilEmpty.string_of_uint d) (Some 0)) as ->.
  { destruct d; [contradiction|reflexivity..]. }
  rewrite digits_string_of_uint by lia. unfold uint_value. simpl.
  destruct (Pos.of_uint d); reflexivity.
Qed.

Lemma parseInt_string_of_Z (n : Z) : (0 <= n)%Z -> parseInt (string_of_Z n) = Some n.
Proof.
  intros A. unfold string_of_Z. destruct n as [|p|p]; [reflexivity| |lia].
  cbn [Z.to_int NilEmpty.string_of_int].
  rewrite parseInt_string_of_uint by apply Unsigned.to_uint_nonnil.
  rewrite Unsigned.of_to. reflexivity.
Qed.

(** X1. When [sendWebhookEvent] returns for a subscription row, one request
    was posted and answered with a 2xx status: it went to the URL of the
    row with the payload as its body and the event type in its header, and
    the signature and timestamp it carries are accepted by
    [verifyWebhookSignature] under the secret of the row at any time within
    the tolerance of the sending time, for the payload as an object and for
    its serialised text alike. *)
Theorem delivered_request_verifies :
  forall eventType payload url secret now axios_post statusCode,
    (0 <= now)%Z ->
    sendWebhookEvent eventType payload (WebhookRow url secret) now axios_post
    = Returns statusCode ->
    exists request,
      axios_post request = Responded statusCode
      /\ (200 <= statusCode < 300)%Z
      /\ req_url request = url /\ req_body request = payload
      /\ req_event request = eventType
      /\ forall tolerance received_at,
           (Z.abs (received_at - now) <= tolerance_or_default tolerance)%Z ->
           verifyWebhookSignature (req_body request) (req_signature request) secret
             (req_timestamp request) tolerance received_at = Returns true
           /\ verifyWebhookSignature (JStr (payloadString (req_body request)))
                (req_signature request) secret (req_timestamp request) tolerance
                received_at = Returns true.
Proof.
  intros eventType payload url secret now axios_post statusCode A S.
  unfold sendWebhookEvent in S. destruct url as [|c u]; [discriminate|].
  set (request := mkRequest (String c u) payload eventType
                    (generateSignature payload secret (string_of_Z now)) (string_of_Z now)) in S.
  destruct (axios_post request) as [status|message] eqn:R; [|discriminate].
  destruct ((200 <=? status) && (status <? 300))%Z eqn:B; [|discriminate].
  injection S as ->. exists request. split; [exact R|].
  apply andb_true_iff in B. destruct B as [B1 B2].
  apply Z.leb_le in B1. apply Z.ltb_lt in B2.
  split; [lia|]. repeat (split; [reflexivity|]).
  intros tolerance received_at T.
  assert (outside_tolerance (string_of_Z now) (tolerance_or_default tolerance) received_at
          = false) as W.
  { unfold outside_tolerance. rewrite parseInt_string_of_Z by exact A.
    apply Z.ltb_ge. exact T. }
  unfold verifyWebhookSignature, request.
  cbn [req_body req_signature req_timestamp]. rewrite W.
  assert (generateSignature (JStr (payloadString payload)) secret (string_of_Z now)
          = generateSignature payload secret (string_of_Z now)) as -> by reflexivity.
  unfold timingSafeEqual. rewrite Nat.eqb_refl, String.eqb_refl. split; reflexivity.
Qed.

Lemma delivered_request_verifies_witness :
  (0 <= 1705315870000)%Z
  /\ sendWebhookEvent "payment.completed" a_payload
       (WebhookRow "https://example.test/hook" "s") 1705315870000 receiver_ok
     = Returns 200
  /\ exists request,
       receiver_ok request = Responded 200
       /\ req_url request = "https://example.test/hook"
       /\ verifyWebhookSignature (req_body request) (req_signature request) "s"
            (req_timestamp request) None 1705315900000 = Returns true.
Proof.
  assert (0 <= 1705315870000)%Z as A by lia.
  assert (sendWebhookEvent "payment.completed" a_payload
            (WebhookRow "https://example.test/hook" "s") 1705315870000 receiver_ok
          = Returns 200) as S by (vm_compute; reflexivity).
  split; [exact A|]. split; [exact S|].
  destruct (@delivered_request_verifies "payment.completed" a_payload
              "https://example.test/hook" "s" 1705315870000 receiver_ok 200 A S)
    as (request & R & _ & U & _ & _ & V).
  exists request. split; [exact R|]. split; [exact U|].
  apply (V None 1705315900000). vm_compute. discriminate.
Defined.

(** X2. [sendWebhookEvent] either returns the status of a response in
    200..299, or throws a [ReferenceError] with the message
    [webhookUrl is not defined]: whatever went wrong (no URL, no response, a
    status outside 2xx), the error of the cause is lost in the [catch]
    block. Called without a webhook it always throws. *)
Theorem sendWebhookEvent_loses_the_cause :
  forall eventType payload webhook now axios_post,
    let result := sendWebhookEvent eventType payload webhook now axios_post in
    ((exists statusCode request,
        result = Returns statusCode /\ axios_post request = Responded statusCode
        /\ (200 <= statusCode < 300)%Z)
     \/ result = Throws "ReferenceError" "webhookUrl is not defined")
    /\ (webhook = NoWebhook -> result = Throws "ReferenceError" "webhookUrl is not defined").
Proof.
  intros eventType payload webhook now axios_post result. split.
  - unfold result, sendWebhookEvent.
    destruct webhook as [|url|url secret]; [right; reflexivity| |].
    + match goal with |- context [axios_post ?r] =>
        destruct (axios_post r) as [status|message] eqn:R end; [|right; reflexivity].
      destruct ((200 <=? status) && (status <? 300))%Z eqn:B; [|right; reflexivity].
      left. eexists. eexists. split; [reflexivity|]. split; [exact R|].
      apply andb_true_iff in B. destruct B as [B1 B2].
      apply Z.leb_le in B1. apply Z.ltb_lt in B2. lia.
    + destruct url as [|c u]; [right; reflexivity|].
      match goal with |- context [axios_post ?r] =>
        destruct (axios_post r) as [status|message] eqn:R end; [|right; reflexivity].
      destruct ((200 <=? status) && (status <? 300))%Z eqn:B; [|right; reflexivity].
      left. eexists. eexists. split; [reflexivity|]. split; [exact R|].
      apply andb_true_iff in B. destruct B as [B1 B2].
      apply Z.leb_le in B1. apply Z.ltb_lt in B2. lia.
  - intros ->. reflexivity.
Qed.

(** X3. When [parseInt] finds no number in the timestamp, the staleness
    check of [verifyWebhookSignature] compares with [NaN] and never rejects:
    the signature made for that timestamp verifies at every time and under
    every tolerance, and the outcome for any presented signature does not
    depend on the clock or on the tolerance. *)
Theorem unparsable_timestamp_is_never_stale :
  forall payload secret timestamp,
    parseInt timestamp = None ->
    forall tolerance now,
      verifyWebhookSignature payload (generateSignature payload secret timestamp) secret
        timestamp tolerance now = Returns true
      /\ forall signature tolerance' now',
           verifyWebhookSignature payload signature secret timestamp tolerance now
           = verifyWebhookSignature payload signature secret timestamp tolerance' now'.
Proof.
  intros payload secret timestamp P tolerance now.
  unfold verifyWebhookSignature, outside_tolerance. rewrite P. split.
  - unfold timingSafeEqual. rewrite Nat.eqb_refl, String.eqb_refl. reflexivity.
  - reflexivity.
Qed.

Lemma unparsable_timestamp_is_never_stale_witness :
  parseInt "soon" = None
  /\ verifyWebhookSignature a_payload (generateSignature a_payload "s" "soon") "s" "soon"
       (Some 1) 0 = Returns true.
Proof.
  assert (parseInt "soon" = None) as P by reflexivity.
  split; [exact P|].
  exact (proj1 (@unparsable_timestamp_is_never_stale a_payload "s" "soon" P (Some 1) 0)).
Defined.

Lemma bytes_of_string_app s t :
  bytes_of_string (s ++ t) = (bytes_of_string s ++ bytes_of_string t)%list.
Proof. induction s as [|c s IH]; simpl; [reflexivity | rewrite IH; reflexivity]. Qed.

Lemma bytes_of_string_length s : List.length (bytes_of_string s) = String.length s.
Proof. induction s as [|c s IH]; simpl; [reflexivity | rewrite IH; reflexivity]. Qed.

Lemma block_key_zero (key : list N) :
  (List.length key < 64)%nat ->
  SHA256.block_key (key ++ [0%N]) = SHA256.block_key key.
Proof.
  intros L. unfold SHA256.block_key. rewrite length_app. cbn [List.length].
  destruct (Nat.ltb_spec 64 (List.length key + 1)); [lia|].
  destruct (Nat.ltb_spec 64 (List.length key)); [lia|].
  rewrite length_app. cbn [List.length]. rewrite <- app_assoc. f_equal.
  replace (64 - List.length key)%nat with (S (64 - (List.length key + 1)))%nat by lia.
  reflexivity.
Qed.

(** X4. [crypto.createHmac] pads a key shorter than the block of 64 bytes
    with zero bytes, so a secret of fewer than 64 bytes and the same secret
    followed by a NUL character give the same signature for every payload
    and timestamp. *)
Theorem zero_byte_after_secret_signs_alike :
  forall payload secret timestamp,
    (String.length secret < 64)%nat ->
    generateSignature payload (secret ++ String zero EmptyString) timestamp
    = generateSignature payload secret timestamp.
Proof.
  intros payload secret timestamp L.
  unfold generateSignature, hmac_sha256_hex, SHA256.hmac.
  rewrite bytes_of_string_app. simpl (bytes_of_string (String zero EmptyString)).
  rewrite block_key_zero by (rewrite bytes_of_string_length; exact L).
  reflexivity.
Qed.

Lemma zero_byte_after_secret_signs_alike_witness :
  (String.length "s" < 64)%nat
  /\ generateSignature a_payload ("s" ++ String zero EmptyString) a_timestamp
     = generateSignature a_payload "s" a_timestamp.
Proof.
  assert (String.length "s" < 64)%nat as L by (simpl; lia).
  split; [exact L|].
  exact (@zero_byte_after_secret_signs_alike a_payload "s" a_timestamp L).
Defined.

(** ** services/webhookService.js: [sendWebhookWithRetry] *)

Lemma sendWebhookEvent_outcome eventType payload webhook now axios_post :
  (exists statusCode, sendWebhookEvent eventType payload webhook now axios_post
                      = Returns statusCode)
  \/ sendWebhookEvent eventType payload webhook now axios_post
     = Throws "ReferenceError" the_lost_cause.
Proof.
  destruct (sendWebhookEvent eventType payload webhook now axios_post)
    as [statusCode|name message] eqn:S; [left; eexists; reflexivity|right].
  unfold sendWebhookEvent in S.
  destruct webhook as [|url|url secret]; [symmetry; exact S| |].
  - destruct (axios_post _) as [status|m]; [|symmetry; exact S].
    destruct (_ && _)%bool; [discriminate | symmetry; exact S].
  - destruct url as [|c u]; [symmetry; exact S|].
    destruct (axios_post _) as [status|m]; [|symmetry; exact S].
    destruct (_ && _)%bool; [discriminate | symmetry; exact S].
Qed.

Section Retry.
Variables (webhook : WebhookArg) (event : EventArg) (maxRetries : Z).
Variables (clock : Z -> Z) (axios_post : Z -> HttpRequest -> AxiosOutcome).

Lemma retry_loop_terminates fuel :
  forall retryCount lastError slept,
    (Z.to_nat (maxRetries - retryCount) <= fuel)%nat ->
    exists r, retry_loop fuel webhook event maxRetries clock axios_post retryCount
                lastError slept = Some r.
Proof.
  induction fuel as [|fuel IH]; intros retryCount lastError slept F;
    cbn [retry_loop]; destruct (Z.ltb_spec retryCount maxRetries) as [L|L].
  - lia.
  - destruct lastError; eexists; reflexivity.
  - destruct (sendWebhookEvent _ _ _ _ _); [eexists; reflexivity|].
    apply IH. lia.
  - destruct lastError; eexists; reflexivity.
Qed.

Lemma retry_loop_all_fail (n : nat) :
  forall fuel retryCount lastError slept,
    (maxRetries - retryCount = Z.of_nat (S n))%Z ->
    (S n <= fuel)%nat ->
    (forall i, (retryCount <= i < maxRetries)%Z -> forall s, retry_attempt webhook event clock axios_post i <> Returns s) ->
    retry_loop fuel webhook event maxRetries clock axios_post retryCount lastError slept
    = Some (Returns (RetryGaveUp the_lost_cause maxRetries),
            (slept ++ backoff_delays (retryCount + 1) n)%list).
Proof.
  induction n as [|n IH]; intros fuel retryCount lastError slept M F A;
    (destruct fuel as [|fuel]; [lia|]); cbn [retry_loop];
    (destruct (Z.ltb_spec retryCount maxRetries) as [L|L]; [|lia]);
    (destruct (sendWebhookEvent_outcome (arg_event_type event) (arg_payload event) webhook
                 (clock retryCount) (axios_post retryCount)) as [[s S]|S];
     [exfalso; apply (A retryCount ltac:(lia) s); exact S|]);
    unfold retry_attempt in *; rewrite S; cbv zeta.
  - destruct (Z.ltb_spec (retryCount + 1) maxRetries) as [L'|L']; [lia|].
    destruct fuel as [|fuel]; cbn [retry_loop];
      (destruct (Z.ltb_spec (retryCount + 1) maxRetries); [lia|]);
      cbn [backoff_delays]; rewrite app_nil_r; repeat f_equal; lia.
  - destruct (Z.ltb_spec (retryCount + 1) maxRetries) as [L'|L']; [|lia].
    rewrite IH; [|lia|lia|intros i I; apply A; lia].
    cbn [backoff_delays]. rewrite <- app_assoc. reflexivity.
Qed.

Lemma retry_loop_first_success (n : nat) :
  forall fuel retryCount lastError slept k statusCode,
    (k - retryCount = Z.of_nat n)%Z -> (k < maxRetries)%Z ->
    (Z.to_nat (maxRetries - retryCount) <= fuel)%nat ->
    (forall i, (retryCount <= i < k)%Z -> forall s, retry_attempt webhook event clock axios_post i <> Returns s) ->
    retry_attempt webhook event clock axios_post k = Returns statusCode ->
    retry_loop fuel webhook event maxRetries clock axios_post retryCount lastError slept
    = Some (Returns (RetrySucceeded statusCode k),
            (slept ++ backoff_delays (retryCount + 1) n)%list).
Proof.
  induction n as [|n IH]; intros fuel retryCount lastError slept k statusCode K M F A S;
    (destruct fuel as [|fuel]; [lia|]); cbn [retry_loop];
    (destruct (Z.ltb_spec retryCount maxRetries) as [L|L]; [|lia]).
  - assert (retryCount = k) as -> by lia. unfold retry_attempt in S. rewrite S.
    cbn [backoff_delays]. rewrite app_nil_r. reflexivity.
  - destruct (sendWebhookEvent_outcome (arg_event_type event) (arg_payload event) webhook
                (clock retryCount) (axios_post retryCount)) as [[s E]|E];
      [exfalso; apply (A retryCount ltac:(lia) s); exact E|].
    rewrite E. cbv zeta.
    destruct (Z.ltb_spec (retryCount + 1) maxRetries) as [L'|L']; [|lia].
    rewrite (IH _ _ _ _ k statusCode); [|lia|lia|lia|intros i I; apply A; lia|exact S].
    cbn [backoff_delays]. rewrite <- app_assoc. reflexivity.
Qed.
End Retry.

Lemma backoff_delays_sum (count : nat) :
  forall first, (0 <= first)%Z ->
    fold_right Z.add 0 (backoff_delays first count)
    = ((2 ^ (first + Z.of_nat count) - 2 ^ first) * 1000)%Z.
Proof.
  induction count as [|count IH]; intros first F; cbn [backoff_delays fold_right].
  - rewrite Z.add_0_r. lia.
  - rewrite IH by lia.
    replace (first + 1 + Z.of_nat count)%Z with (first + Z.of_nat (S count))%Z by lia.
    rewrite (Z.pow_add_r 2 first 1) by lia. lia.
Qed.

Lemma backoff_delays_length first count : List.length (backoff_delays first count) = count.
Proof. revert first. induction count; intros; simpl; auto. Qed.

(** X5. [sendWebhookWithRetry] with [maxRetries >= 1] (5 by default), when
    every attempt fails: it makes [maxRetries] attempts and returns
    [success: false] with [retryCount = maxRetries] and the error message
    [webhookUrl is not defined]; between the attempts it sleeps
    2, 4, ..., 2^(maxRetries-1) seconds, [(2^maxRetries - 2)] seconds in
    all, and does not sleep after the last attempt. *)
Theorem retries_exhausted :
  forall webhook event maxRetries clock axios_post,
    let m := match maxRetries with Some m => m | None => 5 end in
    (1 <= m)%Z ->
    (forall i, (0 <= i < m)%Z ->
       forall s, retry_attempt webhook event clock axios_post i <> Returns s) ->
    sendWebhookWithRetry webhook event maxRetries clock axios_post
    = Some (Returns (RetryGaveUp the_lost_cause m), backoff_delays 1 (Z.to_nat m - 1))
    /\ fold_right Z.add 0 (backoff_delays 1 (Z.to_nat m - 1)) = ((2 ^ m - 2) * 1000)%Z.
Proof.
  intros webhook event maxRetries clock axios_post m M A. split.
  - unfold sendWebhookWithRetry. fold m.
    rewrite (@retry_loop_all_fail webhook event m clock axios_post (Z.to_nat m - 1));
      [reflexivity | lia | lia | exact A].
  - rewrite backoff_delays_sum by lia.
    replace (1 + Z.of_nat (Z.to_nat m - 1))%Z with m by lia. reflexivity.
Qed.

Lemma retries_exhausted_witness :
  (1 <= 5)%Z
  /\ (forall i, (0 <= i < 5)%Z ->
        forall s, retry_attempt a_hook an_event_arg a_clock (fun _ => receiver_down) i
                  <> Returns s)
  /\ sendWebhookWithRetry a_hook an_event_arg None a_clock (fun _ => receiver_down)
     = Some (Returns (RetryGaveUp the_lost_cause 5), [2000; 4000; 8000; 16000]).
Proof.
  assert (1 <= 5)%Z as M by lia.
  assert (forall i, (0 <= i < 5)%Z ->
            forall s, retry_attempt a_hook an_event_arg a_clock (fun _ => receiver_down) i
                      <> Returns s) as A.
  { intros i I s.
    assert (i = 0 \/ i = 1 \/ i = 2 \/ i = 3 \/ i = 4)%Z as [->|[->|[->|[->| ->]]]] by lia;
      vm_compute; discriminate. }
  split; [exact M|]. split; [exact A|].
  destruct (@retries_exhausted a_hook an_event_arg None a_clock (fun _ => receiver_down) M A)
    as [R _].
  exact R.
Defined.

(** X6. [sendWebhookWithRetry], when attempt [k] (counted from 0, below
    [maxRetries]) is the first that succeeds: it returns [success: true]
    with the status of that response and [retryCount = k], having slept
    2, 4, ..., 2^k seconds before the retries, and makes no further
    attempt. *)
Theorem retries_stop_at_first_success :
  forall webhook event maxRetries clock axios_post k statusCode,
    let m := match maxRetries with Some m => m | None => 5 end in
    (0 <= k < m)%Z ->
    (forall i, (0 <= i < k)%Z ->
       forall s, retry_attempt webhook event clock axios_post i <> Returns s) ->
    retry_attempt webhook event clock axios_post k = Returns statusCode ->
    sendWebhookWithRetry webhook event maxRetries clock axios_post
    = Some (Returns (RetrySucceeded statusCode k), backoff_delays 1 (Z.to_nat k)).
Proof.
  intros webhook event maxRetries clock axios_post k statusCode m K A S.
  unfold sendWebhookWithRetry. fold m.
  rewrite (@retry_loop_first_success webhook event m clock axios_post (Z.to_nat k)
             _ _ _ _ k statusCode); [reflexivity | lia | lia | lia | exact A | exact S].
Qed.

Lemma retries_stop_at_first_success_witness :
  (0 <= 2 < 5)%Z
  /\ (forall i, (0 <= i < 2)%Z ->
        forall s, retry_attempt a_hook an_event_arg a_clock (a_receiver_up_from 2) i
                  <> Returns s)
  /\ retry_attempt a_hook an_event_arg a_clock (a_receiver_up_from 2) 2 = Returns 200
  /\ sendWebhookWithRetry a_hook an_event_arg None a_clock (a_receiver_up_from 2)
     = Some (Returns (RetrySucceeded 200 2), [2000; 4000]).
Proof.
  assert (0 <= 2 < 5)%Z as K by lia.
  assert (forall i, (0 <= i < 2)%Z ->
            forall s, retry_attempt a_hook an_event_arg a_clock (a_receiver_up_from 2) i
                      <> Returns s) as A.
  { intros i I s. assert (i = 0 \/ i = 1)%Z as [->| ->] by lia; vm_compute; discriminate. }
  assert (retry_attempt a_hook an_event_arg a_clock (a_receiver_up_from 2) 2 = Returns 200)
    as S by (vm_compute; reflexivity).
  split; [exact K|]. split; [exact A|]. split; [exact S|].
  exact (@retries_stop_at_first_success a_hook an_event_arg None a_clock
           (a_receiver_up_from 2) 2 200 K A S).
Defined.

(** X7. [sendWebhookWithRetry] with [maxRetries <= 0] makes no attempt and
    does not return a result: the loop body never runs, [lastError] is
    still [null], and reading [lastError.message] throws a [TypeError]. *)
Theorem no_retries_allowed_throws :
  forall webhook event m clock axios_post,
    (m <= 0)%Z ->
    sendWebhookWithRetry webhook event (Some m) clock axios_post
    = Some (Throws "TypeError" "Cannot read properties of null (reading 'message')", []).
Proof.
  intros webhook event m clock axios_post M. unfold sendWebhookWithRetry.
  destruct (Z.to_nat m); cbn [retry_loop];
    (destruct (Z.ltb_spec 0 m); [lia | reflexivity]).
Qed.

Lemma no_retries_allowed_throws_witness :
  (0 <= 0)%Z
  /\ sendWebhookWithRetry a_hook an_event_arg (Some 0) a_clock (fun _ => receiver_ok)
     = Some (Throws "TypeError" "Cannot read properties of null (reading 'message')", []).
Proof.
  assert (0 <= 0)%Z as M by lia.
  split; [exact M|].
  exact (@no_retries_allowed_throws a_hook an_event_arg 0 a_clock (fun _ => receiver_ok) M).
Defined.

(** X8. The loop of [sendWebhookWithRetry] always ends, whatever the
    receiver answers and whatever [maxRetries] is: after at most
    [maxRetries] attempts the call completes, with a result or an error. *)
Theorem sendWebhookWithRetry_ends :
  forall webhook event maxRetries clock axios_post,
    exists completion slept,
      sendWebhookWithRetry webhook event maxRetries clock axios_post
      = Some (completion, slept).
Proof.
  intros webhook event maxRetries clock axios_post. unfold sendWebhookWithRetry.
  destruct (@retry_loop_terminates webhook event
              (match maxRetries with Some m => m | None => 5 end) clock axios_post
              (Z.to_nat (match maxRetries with Some m => m | None => 5 end)) 0 None [])
    as [[completion slept] R].
  - rewrite Z.sub_0_r. apply Nat.le_refl.
  - exists completion, slept. exact R.
Qed.

(** ** jobs/paymentQueue.js: the processor and the dispatcher *)

Lemma sql_update_none {A : Type} (where_ : A -> bool) (set : A -> A) (t : list A) :
  (forall r, In r t -> where_ r = false) -> sql_update where_ set t = t.
Proof.
  induction t as [|r t IH]; simpl; intros N; [reflexivity|].
  rewrite (N r) by (left; reflexivity). f_equal. apply IH. intros x I. apply N. right. exact I.
Qed.

Lemma sql_update_twice {A : Type} (where_ : A -> bool) (set : A -> A) (t : list A) :
  (forall r, where_ (set r) = where_ r) -> (forall r, set (set r) = set r) ->
  sql_update where_ set (sql_update where_ set t) = sql_update where_ set t.
Proof.
  intros W S. unfold sql_update. rewrite map_map. apply map_ext. intros r.
  destruct (where_ r) eqn:E; [rewrite W, E; apply S | rewrite E; reflexivity].
Qed.

Lemma processPayment_inserts db data isSuccess gen :
  List.length (webhook_events (snd (processPayment db data isSuccess gen)))
  = (List.length (webhook_events db) + List.length (filter wh_active (webhooks db)))%nat.
Proof.
  destruct (processPayment_events db data isSuccess gen) as [payload E].
  rewrite E, length_app, length_map, length_combine, length_seq, Nat.min_id. reflexivity.
Qed.

(** X9. [processPayment] on a job whose payment id no row of [payments]
    has: the [UPDATE] matches nothing and the table stays as it was, yet
    the transaction still inserts one event of the outcome for every active
    subscription. *)
Theorem processPayment_without_payment :
  forall db data isSuccess gen,
    (forall p, In p (payments db) -> pay_id p <> job_paymentId data) ->
    let db' := snd (processPayment db data isSuccess gen) in
    payments db' = payments db
    /\ List.length (inserted_events db db') = List.length (filter wh_active (webhooks db))
    /\ Forall (fun e => ev_event_type e = outcome_event isSuccess) (inserted_events db db').
Proof.
  intros db data isSuccess gen N db'. split; [|split].
  - unfold db'. rewrite processPayment_payments. apply sql_update_none.
    intros p I. apply String.eqb_neq. apply N. exact I.
  - unfold inserted_events, db'.
    destruct (processPayment_events db data isSuccess gen) as [payload E].
    rewrite E, skipn_length_app, length_map, length_combine, length_seq. apply Nat.min_id.
  - unfold inserted_events, db'.
    destruct (processPayment_events db data isSuccess gen) as [payload E].
    rewrite E, skipn_length_app. apply Forall_forall. intros e I.
    apply in_map_iff in I. destruct I as (iw & <- & _). reflexivity.
Qed.

Lemma processPayment_without_payment_witness :
  let db := a_db PayPending [] [a_webhook "wh_1" [] true] in
  let data := mkPaymentJob "pay_9" 100 "x@y.z" in
  (forall p, In p (payments db) -> pay_id p <> job_paymentId data)
  /\ payments (snd (processPayment db data true uuid_of_nat)) = payments db
  /\ List.length (inserted_events db (snd (processPayment db data true uuid_of_nat)))
     = 1%nat.
Proof.
  intros db data.
  assert (forall p, In p (payments db) -> pay_id p <> job_paymentId data) as N.
  { simpl. intros p [<-|[]]. discriminate. }
  split; [exact N|].
  destruct (@processPayment_without_payment db data true uuid_of_nat N) as (P & L & _).
  split; [exact P | exact L].
Defined.

(** X10. A job that [processPayment] handles a second time with the same
    outcome (the queue delivers at least once) leaves [payments] as the
    first run made it, and inserts the events once more: as many rows as
    the first run, two for every active subscription in all. *)
Theorem redelivered_job_emits_again :
  forall db data isSuccess gen gen',
    let db1 := snd (processPayment db data isSuccess gen) in
    let db2 := snd (processPayment db1 data isSuccess gen') in
    payments db2 = payments db1
    /\ List.length (inserted_events db1 db2) = List.length (inserted_events db db1)
    /\ List.length (webhook_events db2)
       = (List.length (webhook_events db)
          + 2 * List.length (filter wh_active (webhooks db)))%nat.
Proof.
  intros db data isSuccess gen gen' db1 db2.
  assert (webhooks db1 = webhooks db) as W by apply processPayment_webhooks.
  assert (forall d g, List.length (inserted_events d (snd (processPayment d data isSuccess g)))
                      = List.length (filter wh_active (webhooks d))) as I.
  { intros d g. unfold inserted_events.
    destruct (processPayment_events d data isSuccess g) as [payload E].
    rewrite E, skipn_length_app, length_map, length_combine, length_seq. apply Nat.min_id. }
  unfold db2, db1 in *. split; [|split].
  - rewrite !processPayment_payments. apply sql_update_twice; reflexivity.
  - rewrite !I, W. reflexivity.
  - rewrite processPayment_inserts, W, processPayment_inserts. lia.
Qed.

Lemma delivery_ignores_active db (f : Webhook -> bool) eventData clock axios_post :
  delivery (with_webhooks db (map (fun w => set_wh_active (f w) w) (webhooks db)))
    eventData clock axios_post
  = delivery db eventData clock axios_post.
Proof.
  unfold delivery. cbn [webhooks with_webhooks].
  induction (webhooks db) as [|w ws IH]; [reflexivity|]. cbn [map filter].
  cbn [wh_id set_wh_active]. destruct (wh_id w =? data_webhook_id eventData); [reflexivity|].
  exact IH.
Qed.

(** X11. [processWebhookEvent] selects the subscription by id and reads only
    its [url] and [secret]: changing the [active] flags of the subscriptions
    in any way changes nothing of what an attempt does to the outbox, so an
    event queued for a subscription that was deactivated since is still
    delivered. *)
Theorem deactivated_subscription_is_still_served :
  forall db (f : Webhook -> bool) eventData now clock axios_post,
    webhook_events
      (processWebhookEvent
         (with_webhooks db (map (fun w => set_wh_active (f w) w) (webhooks db)))
         eventData now clock axios_post)
    = webhook_events (processWebhookEvent db eventData now clock axios_post).
Proof.
  intros. rewrite !processWebhookEvent_rows, delivery_ignores_active. reflexivity.
Qed.

Lemma pendingEvents_due db now e :
  In e (pendingEvents db now) -> In e (webhook_events db) /\ is_due now e = true.
Proof.
  unfold pendingEvents. intros I. apply in_firstn in I. apply filter_In in I. exact I.
Qed.

(** X12. After [processWebhookEvent] has handled an event at time [now], a
    row of that event is selected by the poller at time [t] only if the
    delivery failed with attempts left: the row then has the incremented
    [retry_count], [next_retry = now + 2^n * 60] seconds, and [t] is not
    before that time. *)
Theorem handled_event_is_polled_again_only_for_retry :
  forall db eventData now clock axios_post t e',
    let db' := processWebhookEvent db eventData now clock axios_post in
    In e' (pendingEvents db' t) -> ev_id e' = data_id eventData ->
    let n := (data_retry_count eventData + 1)%Z in
    delivery_failed (delivery db eventData clock axios_post) = true
    /\ (n < data_max_retries eventData)%Z
    /\ ev_retry_count e' = n
    /\ ev_next_retry e' = Some (now + backoffSeconds n)%Z
    /\ (now + backoffSeconds n <= t)%Z.
Proof.
  intros db eventData now clock axios_post t e' db' I E n.
  apply pendingEvents_due in I. destruct I as [I D].
  unfold db' in I. rewrite processWebhookEvent_rows in I.
  apply in_sql_update in I. destruct I as (r & Ir & R).
  destruct (String.eqb_spec (ev_id r) (data_id eventData)) as [Y|N].
  2:{ subst e'. contradiction. }
  subst e'. unfold attempt_update in D |- *.
  destruct (delivery db eventData clock axios_post) as [[s|name message]|];
    [discriminate D| |discriminate D].
  fold n in D |- *.
  destruct (Z.leb_spec (data_max_retries eventData) n) as [L|L]; [discriminate D|].
  unfold is_due in D. cbn [ev_status ev_next_retry set_ev_retry] in D.
  destruct (ev_status r); try discriminate D. apply Z.leb_le in D.
  repeat split; try reflexivity; lia.
Qed.

Lemma handled_event_is_polled_again_only_for_retry_witness :
  let db := an_outbox 0 in
  let eventData := event_data (an_event EvPending 0) in
  let db' := processWebhookEvent db eventData 1000 1000000 receiver_down in
  let e' := set_ev_retry 1 1120 the_lost_cause (an_event EvPending 0) in
  In e' (pendingEvents db' 2000)
  /\ ev_id e' = data_id eventData
  /\ delivery_failed (delivery db eventData 1000000 receiver_down) = true
  /\ ev_next_retry e' = Some (1000 + backoffSeconds 1)%Z.
Proof.
  intros db eventData db' e'.
  assert (In e' (pendingEvents db' 2000)) as I by (vm_compute; left; reflexivity).
  assert (ev_id e' = data_id eventData) as E by reflexivity.
  split; [exact I|]. split; [exact E|].
  destruct (@handled_event_is_polled_again_only_for_retry db eventData 1000 1000000
              receiver_down 2000 e' I E) as (F & _ & _ & R & _).
  split; [exact F | exact R].
Defined.

(** X13. When the delivery of an event fails at attempt
    [n = retry_count + 1] and [n >= max_retries], [processWebhookEvent] sets
    every row of the event to [failed] with [retry_count = n] and
    [last_error] = the message of the error, and adds or removes no row. *)
Theorem exhausted_delivery_marks_failed :
  forall db eventData now clock axios_post name message,
    delivery db eventData clock axios_post = Some (Throws name message) ->
    let n := (data_retry_count eventData + 1)%Z in
    (data_max_retries eventData <= n)%Z ->
    let db' := processWebhookEvent db eventData now clock axios_post in
    (forall e, In e (webhook_events db) -> ev_id e = data_id eventData ->
       In (set_ev_exhausted message n e) (webhook_events db'))
    /\ (forall e', In e' (webhook_events db') -> ev_id e' = data_id eventData ->
          ev_status e' = EvFailed /\ ev_retry_count e' = n
          /\ ev_last_error e' = Some message)
    /\ List.length (webhook_events db') = List.length (webhook_events db).
Proof.
  intros db eventData now clock axios_post name message D n M db'.
  assert (webhook_events db'
          = sql_update (fun e => ev_id e =? data_id eventData)
              (set_ev_exhausted message n) (webhook_events db)) as Rows.
  { unfold db'. rewrite processWebhookEvent_rows, D. unfold attempt_update. fold n.
    destruct (Z.leb_spec (data_max_retries eventData) n); [reflexivity | lia]. }
  rewrite Rows. split; [|split].
  - intros e I E. apply sql_update_sets; [exact I|]. apply String.eqb_eq. exact E.
  - intros e' I' E'. apply in_sql_update in I'. destruct I' as (r & Ir & ->).
    destruct (String.eqb_spec (ev_id r) (data_id eventData)); [|contradiction].
    repeat split.
  - apply sql_update_length.
Qed.

Lemma exhausted_delivery_marks_failed_witness :
  let db := an_outbox 4 in
  let eventData := event_data (an_event EvPending 4) in
  delivery db eventData 1000000 receiver_down
  = Some (Throws "ReferenceError" the_lost_cause)
  /\ (data_max_retries eventData <= data_retry_count eventData + 1)%Z
  /\ In (set_ev_exhausted the_lost_cause 5 (an_event EvPending 4))
        (webhook_events (processWebhookEvent db eventData 1000 1000000 receiver_down)).
Proof.
  intros db eventData.
  assert (delivery db eventData 1000000 receiver_down
          = Some (Throws "ReferenceError" the_lost_cause)) as D by (vm_compute; reflexivity).
  assert (data_max_retries eventData <= data_retry_count eventData + 1)%Z as M
    by (vm_compute; discriminate).
  split; [exact D|]. split; [exact M|].
  destruct (@exhausted_delivery_marks_failed db eventData 1000 1000000 receiver_down
              "ReferenceError" the_lost_cause D M) as (Sets & _).
  apply (Sets (an_event EvPending 4)); [left; reflexivity | reflexivity].
Defined.

(** X14. When no subscription has the id the event names,
    [processWebhookEvent] sets the rows of the event to [failed] and leaves
    the other rows alone; it sends nothing, so the result does not depend on
    the clock or on the receiver. *)
Theorem missing_subscription_marks_failed :
  forall db eventData now clock axios_post,
    (forall w, In w (webhooks db) -> wh_id w <> data_webhook_id eventData) ->
    let db' := processWebhookEvent db eventData now clock axios_post in
    (forall e, In e (webhook_events db) -> ev_id e = data_id eventData ->
       In (set_ev_status EvFailed e) (webhook_events db'))
    /\ (forall e, In e (webhook_events db) -> ev_id e <> data_id eventData ->
          In e (webhook_events db'))
    /\ (forall other_clock other_axios,
          processWebhookEvent db eventData now other_clock other_axios = db').
Proof.
  intros db eventData now clock axios_post N db'.
  assert (filter (fun w => wh_id w =? data_webhook_id eventData) (webhooks db) = []) as F.
  { destruct (filter _ (webhooks db)) as [|w ws] eqn:F; [reflexivity|].
    exfalso. assert (In w (filter (fun w => wh_id w =? data_webhook_id eventData)
                             (webhooks db))) as I by (rewrite F; left; reflexivity).
    apply filter_In in I. destruct I as [I E]. apply String.eqb_eq in E.
    exact (N w I E). }
  assert (forall c a, processWebhookEvent db eventData now c a
                      = update_event db (data_id eventData) (set_ev_status EvFailed)) as P.
  { intros c a. unfold processWebhookEvent. rewrite F. reflexivity. }
  unfold db'. rewrite P. split; [|split].
  - intros e I E. apply sql_update_sets; [exact I|]. apply String.eqb_eq. exact E.
  - intros e I E. apply sql_update_keeps; [exact I|]. apply String.eqb_neq. exact E.
  - intros c a. apply P.
Qed.

Lemma missing_subscription_marks_failed_witness :
  let db := mkDB [] [] [] [an_event EvPending 0] [] in
  let eventData := event_data (an_event EvPending 0) in
  (forall w, In w (webhooks db) -> wh_id w <> data_webhook_id eventData)
  /\ In (set_ev_status EvFailed (an_event EvPending 0))
        (webhook_events (processWebhookEvent db eventData 1000 1000000 receiver_ok)).
Proof.
  intros db eventData.
  assert (forall w, In w (webhooks db) -> wh_id w <> data_webhook_id eventData) as N
    by (intros w []).
  split; [exact N|].
  destruct (@missing_subscription_marks_failed db eventData 1000 1000000 receiver_ok N)
    as (Sets & _).
  apply (Sets (an_event EvPending 0)); [left; reflexivity | reflexivity].
Defined.

(** X15. Whatever made a delivery fail, the [last_error] that
    [processWebhookEvent] records in the rows of the event is the message
    [webhookUrl is not defined] of the error raised in the [catch] block of
    [sendWebhookEvent], never the cause. *)
Theorem recorded_error_is_always_the_same :
  forall db eventData now clock axios_post e',
    let db' := processWebhookEvent db eventData now clock axios_post in
    delivery_failed (delivery db eventData clock axios_post) = true ->
    In e' (webhook_events db') -> ev_id e' = data_id eventData ->
    ev_last_error e' = Some the_lost_cause.
Proof.
  intros db eventData now clock axios_post e' db' F I E.
  unfold db' in I. rewrite processWebhookEvent_rows in I.
  apply in_sql_update in I. destruct I as (r & Ir & ->).
  destruct (String.eqb_spec (ev_id r) (data_id eventData)); [|contradiction].
  assert (delivery db eventData clock axios_post
          = Some (Throws "ReferenceError" the_lost_cause)) as D.
  { unfold delivery in F |- *.
    destruct (filter _ (webhooks db)) as [|w ws]; [discriminate F|].
    destruct (sendWebhookEvent_outcome (data_event_type eventData) (data_payload eventData)
                (WebhookRow (wh_url w) (wh_secret w)) clock axios_post) as [[s S]|S];
      rewrite S in F |- *; [discriminate F | reflexivity]. }
  rewrite D. unfold attempt_update. destruct (_ <=? _)%Z; reflexivity.
Qed.

Lemma recorded_error_is_always_the_same_witness :
  let db := an_outbox 1 in
  let eventData := event_data (an_event EvPending 1) in
  let axios_post := fun _ : HttpRequest => NoResponse "connect ECONNREFUSED" in
  let db' := processWebhookEvent db eventData 1000 1000000 axios_post in
  let e' := set_ev_retry 2 1240 the_lost_cause (an_event EvPending 1) in
  delivery_failed (delivery db eventData 1000000 axios_post) = true
  /\ In e' (webhook_events db')
  /\ ev_id e' = data_id eventData
  /\ ev_last_error e' = Some "webhookUrl is not defined".
Proof.
  intros db eventData axios_post db' e'.
  assert (delivery_failed (delivery db eventData 1000000 axios_post) = true) as F
    by (vm_compute; reflexivity).
  assert (In e' (webhook_events db')) as I by (vm_compute; left; reflexivity).
  assert (ev_id e' = data_id eventData) as E by reflexivity.
  split; [exact F|]. split; [exact I|]. split; [exact E|].
  exact (@recorded_error_is_always_the_same db eventData 1000 1000000 axios_post e' F I E).
Defined.

(** ** routes/webhooks.js: [router.delete] *)


Lemma delete_webhook_cases db id :
  (forall w, In w (webhooks db) -> wh_id w <> id)
    /\ delete_webhook db id = (mkResponse 404 (error_body "Webhook not found"), db)
  \/ (exists w, In w (webhooks db) /\ wh_id w = id)
    /\ res_status (fst (delete_webhook db id)) = 200
    /\ payments (snd (delete_webhook db id)) = payments db
    /\ refunds (snd (delete_webhook db id)) = refunds db
    /\ idempotency_keys (snd (delete_webhook db id)) = idempotency_keys db
    /\ webhooks (snd (delete_webhook db id))
       = filter (fun w => negb (wh_id w =? id)) (webhooks db)
    /\ webhook_events (snd (delete_webhook db id))
       = filter (fun e => negb (ev_webhook_id e =? id)) (webhook_events db).
Proof.
  unfold delete_webhook.
  destruct (filter (fun w => wh_id w =? id) (webhooks db)) as [|w ws] eqn:F.
  - left. split; [|reflexivity]. intros w I E.
    assert (In w []) as X; [|exact X]. rewrite <- F. apply filter_In.
    split; [exact I|]. apply String.eqb_eq. exact E.
  - right. split; [|repeat split].
    assert (In w (filter (fun w => wh_id w =? id) (webhooks db))) as I
      by (rewrite F; left; reflexivity).
    apply filter_In in I. destruct I as [I E]. apply String.eqb_eq in E. eauto.
Qed.


Lemma with_webhook_events_same db : with_webhook_events db (webhook_events db) = db.
Proof. destruct db; reflexivity. Qed.

(** X17. A dispatcher job that was taken from the outbox before its
    subscription was deleted and is handled afterwards finds neither the
    subscription nor a row of its event: [processWebhookEvent] leaves the
    database exactly as the deletion made it. *)
Theorem job_of_deleted_subscription_changes_nothing :
  forall db e now clock axios_post,
    outbox_ok db -> In e (webhook_events db) ->
    let db' := snd (delete_webhook db (ev_webhook_id e)) in
    processWebhookEvent db' (event_data e) now clock axios_post = db'
    /\ forall r, In r (webhook_events db') -> ev_id r <> ev_id e.
Proof.
  intros db e now clock axios_post [Nd A] I db'.
  rewrite Forall_forall in A. destruct (A e I) as (_ & _ & _ & (w & Iw & Ew)).
  unfold db'.
  destruct (delete_webhook_cases db (ev_webhook_id e))
    as [[N _]|(_ & _ & _ & _ & _ & W & E)]; [exfalso; exact (N w Iw Ew)|].
  assert (forall r, In r (webhook_events (snd (delete_webhook db (ev_webhook_id e)))) ->
                    ev_id r <> ev_id e) as Gone.
  { intros r Ir Er. rewrite E in Ir. apply filter_In in Ir. destruct Ir as [Ir B].
    assert (r = e) as -> by (apply (NoDup_map_eq ev_id (webhook_events db)); auto).
    rewrite String.eqb_refl in B. discriminate. }
  split; [|exact Gone].
  unfold processWebhookEvent. cbn [data_webhook_id event_data data_id].
  assert (filter (fun x => wh_id x =? ev_webhook_id e)
                 (webhooks (snd (delete_webhook db (ev_webhook_id e)))) = []) as ->.
  { rewrite W. destruct (filter _ (filter _ _)) as [|x xs] eqn:F; [reflexivity|].
    exfalso. assert (In x (filter (fun x => wh_id x =? ev_webhook_id e)
                             (filter (fun w => negb (wh_id w =? ev_webhook_id e))
                                     (webhooks db)))) as X by (rewrite F; left; reflexivity).
    apply filter_In in X. destruct X as [X Y]. apply filter_In in X. destruct X as [_ Z].
    rewrite Y in Z. discriminate. }
  unfold update_event. rewrite sql_update_none; [apply with_webhook_events_same|].
  intros r Ir. apply String.eqb_neq. apply Gone. exact Ir.
Qed.

Lemma job_of_deleted_subscription_changes_nothing_witness :
  let db := an_outbox 0 in
  let db' := snd (delete_webhook db "wh_1") in
  outbox_ok db
  /\ In (an_event EvPending 0) (webhook_events db)
  /\ processWebhookEvent db' (event_data (an_event EvPending 0)) 1000 1000000 receiver_ok
     = db'.
Proof.
  intros db db'.
  assert (outbox_ok db) as O.
  { split.
    - simpl. constructor; [intros []|constructor].
    - constructor; [|constructor]. unfold event_row_ok. simpl.
      split; [lia|]. split; [lia|]. split; [discriminate|].
      eexists. split; [left; reflexivity | reflexivity]. }
  assert (In (an_event EvPending 0) (webhook_events db)) as I by (left; reflexivity).
  split; [exact O|]. split; [exact I|].
  destruct (@job_of_deleted_subscription_changes_nothing db (an_event EvPending 0) 1000
              1000000 receiver_ok O I) as [Same _].
  exact Same.
Defined.

(** ** routes/payments.js: intake, refund and retrieval *)

(** What intake does once the middleware has let the request through. *)
Lemma post_payment_outcomes w header body uuid1 uuid2 now :
  idempotencyMiddleware (world_db w) header = None ->
  let result := post_payment w header body uuid1 uuid2 now in
  let key := match truthy header with Some k => k | None => uuid1 end in
  (res_status (fst result) = 400 /\ snd result = w
   /\ (amount_is_invalid body \/ truthy (body_customer_email body) = None))
  \/ (res_status (fst result) = 200 /\ snd result = w
      /\ exists p, In p (payments (world_db w)) /\ pay_idempotency_key p = key)
  \/ (res_status (fst result) = 201
      /\ ~ amount_is_invalid body /\ truthy (body_customer_email body) <> None
      /\ (forall p, In p (payments (world_db w)) -> pay_idempotency_key p <> key)
      /\ exists p k amount email,
           payments (world_db (snd result)) = (payments (world_db w) ++ [p])%list
           /\ idempotency_keys (world_db (snd result))
              = (idempotency_keys (world_db w) ++ [k])%list
           /\ refunds (world_db (snd result)) = refunds (world_db w)
           /\ webhooks (world_db (snd result)) = webhooks (world_db w)
           /\ webhook_events (world_db (snd result)) = webhook_events (world_db w)
           /\ payment_queue (snd result)
              = queue_add (mkPaymentJob uuid2 amount email) (payment_queue w)
           /\ pay_id p = uuid2 /\ pay_status p = PayPending
           /\ pay_idempotency_key p = key /\ pay_amount p = amount
           /\ body_amount body = Some amount
           /\ ik_key k = key /\ ik_response k = res_body (fst result)
           /\ ik_expires_at k = (now + idempotency_ttl_seconds)%Z).
Proof.
  intros M result key. unfold result, post_payment. rewrite M. fold key.
  unfold amount_is_invalid.
  destruct (body_amount body) as [amount|]; [|left; simpl; auto].
  destruct (Z.leb_spec amount 0) as [L|L]; [left; simpl; auto|].
  destruct (truthy (body_customer_email body)) as [email|]; [|left; simpl; auto].
  destruct (filter _ (payments (world_db w))) as [|existing rest] eqn:F.
  - right. right. simpl. split; [reflexivity|]. split; [lia|]. split; [discriminate|].
    split.
    + intros p I E. assert (In p []) as X; [|exact X]. rewrite <- F. apply filter_In.
      split; [exact I|]. apply String.eqb_eq. exact E.
    + do 4 eexists. repeat split.
  - right. left. simpl. split; [reflexivity|]. split; [reflexivity|]. exists existing.
    assert (In existing (filter (fun p => pay_idempotency_key p =? key)
                           (payments (world_db w)))) as I by (rewrite F; left; reflexivity).
    apply filter_In in I. destruct I as [I E]. apply String.eqb_eq in E. auto.
Qed.


Lemma middleware_replies db header r :
  idempotencyMiddleware db header = Some r -> res_status r = 200.
Proof.
  unfold idempotencyMiddleware. destruct (truthy header); [|discriminate].
  destruct (filter _ _); [discriminate|]. intros E. injection E as <-. reflexivity.
Qed.



Lemma post_payment_replay_leaves w header body uuid1 uuid2 now r :
  idempotencyMiddleware (world_db w) header = Some r ->
  post_payment w header body uuid1 uuid2 now = (r, w).
Proof. intros M. unfold post_payment. rewrite M. reflexivity. Qed.







(** X21. [POST /payments] keeps the idempotency keys of the payments
    distinct: when no two rows of [payments] share a key before a request,
    none do after it. *)
Theorem post_payment_keeps_keys_distinct :
  forall w header body uuid1 uuid2 now,
    NoDup (map pay_idempotency_key (payments (world_db w))) ->
    NoDup (map pay_idempotency_key
             (payments (world_db (snd (post_payment w header body uuid1 uuid2 now))))).
Proof.
  intros w header body uuid1 uuid2 now N.
  destruct (idempotencyMiddleware (world_db w) header) as [r|] eqn:M.
  - rewrite (@post_payment_replay_leaves w header body uuid1 uuid2 now _ M). exact N.
  - destruct (@post_payment_outcomes w header body uuid1 uuid2 now M)
      as [(_ & U & _)|[(_ & U & _)|(_ & _ & _ & Fresh & p & k & a & e & P & _ & _ & _ & _ & _ & _ & _ & Pk & _)]];
      try (rewrite U; exact N).
    rewrite P, map_app. simpl. apply NoDup_app.
    + exact N.
    + constructor; [intros []|constructor].
    + intros x Ix [<-|[]]. apply in_map_iff in Ix. destruct Ix as (q & E & Iq).
      apply (Fresh q Iq). rewrite E, Pk. reflexivity.
Qed.

Lemma post_payment_keeps_keys_distinct_witness :
  NoDup (map pay_idempotency_key (payments (world_db an_empty_world)))
  /\ NoDup (map pay_idempotency_key
              (payments (world_db (snd (post_payment an_empty_world (Some "K1") a_body
                                          "u1" "P1" 100))))).
Proof.
  assert (NoDup (map pay_idempotency_key (payments (world_db an_empty_world)))) as N
    by (simpl; constructor).
  split; [exact N|].
  exact (@post_payment_keeps_keys_distinct an_empty_world (Some "K1") a_body "u1" "P1" 100
           N).
Defined.

Lemma queue_add_holds job queue :
  exists j, In j (queue_add job queue) /\ job_paymentId j = job_paymentId job.
Proof.
  unfold queue_add. destruct (existsb _ queue) eqn:E.
  - apply existsb_exists in E. destruct E as (j & I & Y). apply String.eqb_eq in Y. eauto.
  - exists job. split; [apply in_or_app; right; left|]; reflexivity.
Qed.

Lemma status_after_update (s : PaymentStatus) (id : string) (l : list Payment) :
  (exists p, In p l /\ pay_id p = id) ->
  option_map pay_status
    (find (fun p => pay_id p =? id)
          (sql_update (fun p => pay_id p =? id) (set_pay_status s) l)) = Some s.
Proof.
  induction l as [|x l IH]; intros (p & I & E); [contradiction|]. simpl.
  destruct (String.eqb_spec (pay_id x) id) as [Y|N]; simpl.
  - rewrite Y, String.eqb_refl. reflexivity.
  - apply String.eqb_neq in N. rewrite N. apply IH. destruct I as [->|I]; [|eauto].
    apply String.eqb_neq in N. contradiction.
Qed.

(** X22. After [POST /payments] has answered 201, the queue holds a job for
    the new payment, and a run of [processPayment] on a job of that payment
    leaves it [completed] on success and [failed] on failure. *)
Theorem created_payment_is_settled_by_its_job :
  forall w header body uuid1 uuid2 now,
    let created := post_payment w header body uuid1 uuid2 now in
    res_status (fst created) = 201 ->
    (exists job, In job (payment_queue (snd created)) /\ job_paymentId job = uuid2)
    /\ forall job isSuccess gen,
         job_paymentId job = uuid2 ->
         payment_status (snd (processPayment (world_db (snd created)) job isSuccess gen))
           uuid2 = Some (outcome_status isSuccess).
Proof.
  intros w header body uuid1 uuid2 now created C. unfold created in *. clear created.
  destruct (idempotencyMiddleware (world_db w) header) as [r|] eqn:M.
  - exfalso. unfold post_payment in C. rewrite M in C. simpl in C.
    rewrite (@middleware_replies _ _ _ M) in C. discriminate.
  - destruct (@post_payment_outcomes w header body uuid1 uuid2 now M)
      as [(S & _)|[(S & _)|(_ & _ & _ & _ & p & k & a & e & P & _ & _ & _ & _ & Q & Pi & _)]];
      try (rewrite S in C; discriminate).
    split.
    + rewrite Q. apply (queue_add_holds (mkPaymentJob uuid2 a e)).
    + intros job isSuccess gen J. unfold payment_status.
      rewrite processPayment_payments, J. apply status_after_update.
      exists p. split; [rewrite P; apply in_or_app; right; left; reflexivity | exact Pi].
Qed.

Lemma created_payment_is_settled_by_its_job_witness :
  let created := post_payment an_empty_world (Some "K1") a_body "u1" "P1" 100 in
  res_status (fst created) = 201
  /\ payment_status
       (snd (processPayment (world_db (snd created)) (mkPaymentJob "P1" 9999 "a@b.c") false
               uuid_of_nat)) "P1"
     = Some PayFailed.
Proof.
  intros created.
  assert (res_status (fst created) = 201) as C by (vm_compute; reflexivity).
  split; [exact C|].
  destruct (@created_payment_is_settled_by_its_job an_empty_world (Some "K1") a_body "u1"
              "P1" 100 C) as [_ Settled].
  exact (Settled (mkPaymentJob "P1" 9999 "a@b.c") false uuid_of_nat eq_refl).
Defined.











(** ** The SDK: [_generateUUID] *)

Lemma toString16_digit (v : N) : (v < 16)%N -> toString16 v = String (hex_digit v) EmptyString.
Proof.
  intros L.
  assert (In v [0; 1; 2; 3; 4; 5; 6; 7; 8; 9; 10; 11; 12; 13; 14; 15]%N) as I.
  { assert (exists n, (n < 16)%nat /\ v = N.of_nat n) as (n & B & ->)
      by (exists (N.to_nat v); split; lia).
    do 16 (destruct n as [|n]; [simpl; tauto|]). lia. }
  simpl in I. repeat (destruct I as [<-|I]; [reflexivity|]). contradiction.
Qed.

Lemma hex_digit_is_hex (v : N) : is_hex_char (hex_digit v) = true.
Proof.
  destruct v as [|p]; [reflexivity|].
  do 4 (destruct p as [p|p|]; try reflexivity).
Qed.

Lemma variant_digit (r : N) :
  (N.lor (N.land r 3) 8 < 16)%N
  /\ is_variant_char (hex_digit (N.lor (N.land r 3) 8)) = true.
Proof.
  assert (N.land r 3 < 4)%N as B.
  { change (N.land r 3) with (N.land r (N.ones 2)). rewrite N.land_ones.
    apply N.mod_lt. discriminate. }
  assert (In (N.land r 3) [0; 1; 2; 3]%N) as I.
  { assert (exists n, (n < 4)%nat /\ N.land r 3 = N.of_nat n) as (n & Bn & ->)
      by (exists (N.to_nat (N.land r 3)); split; lia).
    do 4 (destruct n as [|n]; [simpl; tauto|]). lia. }
  simpl in I. repeat (destruct I as [<-|I]; [split; [reflexivity|reflexivity]|]).
  contradiction.
Qed.

(** X27. Whatever [Math.random] draws (each draw gives a digit below 16),
    the string [_generateUUID] builds has 36 characters in the layout
    8-4-4-4-12 with lower-case hexadecimal digits, the version digit [4],
    and a variant digit among [8], [9], [a] and [b]. *)
Theorem generated_uuid_is_version_4 :
  forall draw : nat -> N,
    (forall i, (draw i < 16)%N) ->
    has_shape uuid_v4_shape (_generateUUID draw) = true
    /\ String.length (_generateUUID draw) = 36%nat.
Proof.
  intros draw B. unfold _generateUUID, uuid_v4_shape.
  cbn [replace_xy Ascii.eqb Bool.eqb].
  rewrite !toString16_digit by (apply B || apply variant_digit).
  cbn [String.append has_shape Ascii.eqb Bool.eqb String.length].
  rewrite !hex_digit_is_hex. rewrite (proj2 (variant_digit _)). split; reflexivity.
Qed.

Lemma generated_uuid_is_version_4_witness :
  (forall i : nat, ((fun n => N.of_nat (n mod 16)) i < 16)%N)
  /\ has_shape uuid_v4_shape (_generateUUID (fun n => N.of_nat (n mod 16))) = true
  /\ _generateUUID (fun n => N.of_nat (n mod 16)) = "01234567-89ab-4cde-b012-3456789abcde".
Proof.
  assert (forall i : nat, ((fun n => N.of_nat (n mod 16)) i < 16)%N) as B.
  { intros i. cbv beta. assert (i mod 16 < 16)%nat by (apply Nat.mod_upper_bound; lia). lia. }
  split; [exact B|].
  destruct (@generated_uuid_is_version_4 (fun n => N.of_nat (n mod 16)) B) as [S _].
  split; [exact S | vm_compute; reflexivity].
Defined.
